(** * basic_user: the validation schema and the API smoke-test script

    A shallow embedding of [app/schema.py] (the pydantic models of the user
    payloads) and of [app/test.py] (the end-to-end script that drives a
    running backend through [requests] and asserts on what comes back),
    followed by the properties of both that the specification states.

    Conventions of the embedding.
    - A decoded JSON document is a value of [json].  Python's [None] is
      [JNull]; a Python [dict] is an association list in insertion order
      with distinct keys; numbers are integers (a JSON number with a
      fraction or an exponent is outside the model).
    - A Python function with side effects is a function of the [world]
      (the module's global variables, the backend, what was sent and what
      was printed) that returns its result, or the exception it raised,
      together with the world it left behind.
    - Text built by an f-string out of values other than strings is kept
      as the list of its pieces. *)

From Stdlib Require Import ZArith List String Ascii Bool Lia.
From Stdlib Require Import DecimalString.
From Stdlib Require DecimalPos DecimalZ.
Import ListNotations.
Local Open Scope string_scope.
Local Open Scope Z_scope.
Set Warnings "-register-all,-notation-for-abbreviation".

(** ** JSON documents and the Python operations applied to them *)

Inductive json : Type :=
| JNull
| JBool (b : bool)
| JInt (n : Z)
| JStr (s : string)
| JList (items : list json)
| JDict (fields : list (string * json)).

(** The pieces of an f-string. *)
Inductive piece : Type :=
| Lit (s : string)        (* literal text, or an interpolated [str] *)
| IntOf (n : Z)           (* an interpolated [int] *)
| StrOf (v : json)        (* [str(v)] of a decoded value *)
| Dumps (v : json).       (* [json.dumps(v, indent=2)] *)

Definition fstring := list piece.

(** The exceptions that can reach [main]'s handlers. *)
Inductive exn : Type :=
| AssertionError (msg : fstring)
| ConnectionError                 (* requests.exceptions.ConnectionError *)
| RequestException                (* any other failure raised by requests *)
| JSONDecodeError                 (* response.json() on a body that is not JSON *)
| AttributeError
| KeyError (key : string)
| TypeError.

Inductive result (A : Type) : Type :=
| Ok (a : A)
| Raise (e : exn).
Arguments Ok {A} a.
Arguments Raise {A} e.

Fixpoint lookup (k : string) (d : list (string * json)) : option json :=
  match d with
  | [] => None
  | (k', v) :: d' => if String.eqb k k' then Some v else lookup k d'
  end.

(** [needle in hay] on two [str]: [needle] occurs somewhere in [hay]. *)
Fixpoint str_in (needle hay : string) : bool :=
  prefix needle hay ||
  match hay with
  | EmptyString => false
  | String _ hay' => str_in needle hay'
  end.

(** Python's [==] on decoded JSON.  [bool] is a subclass of [int], so
    [True == 1]; lists compare element by element; dicts compare as maps. *)
Fixpoint py_eq (a b : json) {struct a} : bool :=
  match a, b with
  | JNull, JNull => true
  | JBool x, JBool y => Bool.eqb x y
  | JBool x, JInt n => Z.eqb (if x then 1 else 0) n
  | JInt n, JBool y => Z.eqb n (if y then 1 else 0)
  | JInt n, JInt m => Z.eqb n m
  | JStr s, JStr t => String.eqb s t
  | JList xs, JList ys =>
      (fix all2 (xs : list json) (ys : list json) {struct xs} : bool :=
         match xs, ys with
         | [], [] => true
         | x :: xs', y :: ys' => py_eq x y && all2 xs' ys'
         | _, _ => false
         end) xs ys
  | JDict d, JDict e =>
      Nat.eqb (List.length d) (List.length e) &&
      (fix sub (d : list (string * json)) {struct d} : bool :=
         match d with
         | [] => true
         | (k, v) :: d' =>
             match lookup k e with
             | Some w => py_eq v w && sub d'
             | None => false
             end
         end) d
  | _, _ => false
  end.

(** [d.get(k, default)]: only a dict has the method. *)
Definition py_get (d : json) (k : string) (default : json) : result json :=
  match d with
  | JDict kv => match lookup k kv with
                | Some v => Ok v
                | None => Ok default
                end
  | _ => Raise AttributeError
  end.

(** [d[k]] with a string key. *)
Definition py_getitem (d : json) (k : string) : result json :=
  match d with
  | JDict kv => match lookup k kv with
                | Some v => Ok v
                | None => Raise (KeyError k)
                end
  | _ => Raise TypeError
  end.

(** [k in c] with [k] a string: substring of a [str], element of a
    [list], key of a [dict]; the other values are not containers. *)
Definition py_in (k : string) (c : json) : result bool :=
  match c with
  | JStr s => Ok (str_in k s)
  | JList xs => Ok (existsb (py_eq (JStr k)) xs)
  | JDict kv => Ok (match lookup k kv with Some _ => true | None => false end)
  | _ => Raise TypeError
  end.

Definition is_none (v : json) : bool :=
  match v with JNull => true | _ => false end.

Definition is_list (v : json) : bool :=
  match v with JList _ => true | _ => false end.

(** [len(v)]; the script takes it of lists only (a [str] is counted in
    bytes here). *)
Definition py_len (v : json) : result Z :=
  match v with
  | JList xs => Ok (Z.of_nat (List.length xs))
  | JDict kv => Ok (Z.of_nat (List.length kv))
  | JStr s => Ok (Z.of_nat (String.length s))
  | _ => Raise TypeError
  end.

Definition str_of_int (n : Z) : string := NilZero.string_of_int (Z.to_int n).

Fixpoint repeat_str (s : string) (n : nat) : string :=
  match n with
  | O => ""
  | S n' => s ++ repeat_str s n'
  end.

(** ** app/schema.py: the pydantic models

    A model is the list of its annotated fields; a subclass extends the
    list of its base.  Validation follows pydantic: the input must be an
    object, every annotated field is required, a [str] field takes a JSON
    string and nothing else (pydantic 2; pydantic 1 would also turn a
    number into its text, and like pydantic 2 refuses [null], arrays and
    objects), an [EmailStr] field takes a string that the email-validator
    package accepts (its verdict and the normalised address it returns
    are the parameter [validate_email]), a field annotated with a model
    takes an object valid for that model, and keys that are not annotated
    are dropped.  [None] stands for pydantic's [ValidationError]. *)

Inductive ftype : Type :=
| TStr
| TEmailStr
| TModel (fields : list (string * ftype)).

Definition UserBase : list (string * ftype) :=
  [("username", TStr); ("email", TEmailStr)].

Definition UserCreate : list (string * ftype) :=
  UserBase ++ [("password", TStr)].

Definition UserLogin : list (string * ftype) :=
  [("email", TEmailStr); ("password", TStr)].

Definition UserResponse : list (string * ftype) :=
  UserBase ++ [("id", TStr)].

Definition TokenResponse : list (string * ftype) :=
  [("user", TModel UserResponse); ("token", TStr)].

(** The models [schema.py] defines, in the order written. *)
Definition schema_models : list (string * list (string * ftype)) :=
  [("UserBase", UserBase); ("UserCreate", UserCreate); ("UserLogin", UserLogin);
   ("UserResponse", UserResponse); ("TokenResponse", TokenResponse)].

(** An object holds a string under a key. *)
Definition has_string (k : string) (kv : list (string * json)) : Prop :=
  exists s, lookup k kv = Some (JStr s).

Section Schema.

Variable validate_email : string -> option string.

Fixpoint validate (t : ftype) (v : json) {struct t} : option json :=
  match t with
  | TStr => match v with
            | JStr s => Some (JStr s)
            | _ => None
            end
  | TEmailStr => match v with
                 | JStr s => option_map JStr (validate_email s)
                 | _ => None
                 end
  | TModel fs =>
      match v with
      | JDict kv =>
          option_map JDict
            ((fix each (fs : list (string * ftype)) : option (list (string * json)) :=
                match fs with
                | [] => Some []
                | (name, t') :: fs' =>
                    match lookup name kv with
                    | None => None
                    | Some x =>
                        match validate t' x, each fs' with
                        | Some y, Some rest => Some ((name, y) :: rest)
                        | _, _ => None
                        end
                    end
                end) fs)
      | _ => None
      end
  end.

Definition model_validate (model : list (string * ftype)) (payload : json)
  : option json :=
  validate (TModel model) payload.

(** The reading of the contract in the specification's words: every
    required field is present, and every email field holds a
    syntactically valid address. *)
Fixpoint fields_present (t : ftype) (v : json) {struct t} : bool :=
  match t with
  | TStr | TEmailStr => true
  | TModel fs =>
      match v with
      | JDict kv =>
          (fix each (fs : list (string * ftype)) : bool :=
             match fs with
             | [] => true
             | (name, t') :: fs' =>
                 match lookup name kv with
                 | None => false
                 | Some x => fields_present t' x && each fs'
                 end
             end) fs
      | _ => false
      end
  end.

Definition is_valid_email (v : json) : bool :=
  match v with
  | JStr s => match validate_email s with Some _ => true | None => false end
  | _ => false
  end.

Fixpoint emails_valid (t : ftype) (v : json) {struct t} : bool :=
  match t with
  | TStr => true
  | TEmailStr => is_valid_email v
  | TModel fs =>
      match v with
      | JDict kv =>
          (fix each (fs : list (string * ftype)) : bool :=
             match fs with
             | [] => true
             | (name, t') :: fs' =>
                 match lookup name kv with
                 | None => each fs'
                 | Some x => emails_valid t' x && each fs'
                 end
             end) fs
      | _ => true
      end
  end.

(** The same contract with the declared types taken into account: a
    field is present with a value of its declared type. *)
Definition is_string (v : json) : bool :=
  match v with JStr _ => true | _ => false end.

Fixpoint fields_typed (t : ftype) (v : json) {struct t} : bool :=
  match t with
  | TStr | TEmailStr => is_string v
  | TModel fs =>
      match v with
      | JDict kv =>
          (fix each (fs : list (string * ftype)) : bool :=
             match fs with
             | [] => true
             | (name, t') :: fs' =>
                 match lookup name kv with
                 | None => false
                 | Some x => fields_typed t' x && each fs'
                 end
             end) fs
      | _ => false
      end
  end.

(** An object holds, under a key, a string that is a valid address. *)
Definition has_email (k : string) (kv : list (string * json)) : Prop :=
  exists s, lookup k kv = Some (JStr s) /\ validate_email s <> None.

End Schema.

(** A coarse stand-in for the email-validator package, used to run the
    models on examples: one [@], something before it, a dot after it. *)
Definition has_char (c : ascii) (s : string) : bool :=
  match index 0 (String c EmptyString) s with Some _ => true | None => false end.

Definition coarse_email (s : string) : option string :=
  match index 0 "@" s with
  | Some O => None
  | Some n =>
      let domain := substring (S n) (String.length s - S n) s in
      if has_char "." domain && negb (has_char "@" domain)
      then Some s else None
  | None => None
  end.

(** ** app/test.py: the smoke-test script *)

(** *** What goes over the wire *)

Inductive method : Type := GET | POST | PUT | DELETE.

Record request : Type := mkRequest {
  rq_method : method;
  rq_url : fstring;
  rq_json : option json;                    (* the [json=] argument *)
  rq_headers : list (string * fstring)      (* the [headers=] argument *)
}.

Record response : Type := mkResponse {
  status_code : Z;
  json_body : option json;    (* [None]: the body does not decode as JSON *)
  text : string
}.

(** A call of [requests] returns a response, or fails to reach the
    backend, or fails in some other way. *)
Inductive outcome : Type :=
| Responded (r : response)
| Unreachable
| Broken.

(** What the script writes: a [print], a [print] of text followed by an
    exception, and [traceback.print_exc()]. *)
Inductive event : Type :=
| Print (line : fstring)
| PrintWith (line : string) (e : exn)
| PrintExc (e : exn).

(** *** Configuration *)

Definition BASE_URL : string := "http://localhost:8000".
Definition API_BASE : string := BASE_URL ++ "/api".

Definition test_user_of (timestamp : Z) : json :=
  JDict [("username", JStr ("testuser_" ++ str_of_int timestamp));
         ("email", JStr ("test_" ++ str_of_int timestamp ++ "@example.com"));
         ("password", JStr "password123")].

Definition test_user2_of (timestamp : Z) : json :=
  JDict [("username", JStr ("testuser2_" ++ str_of_int timestamp));
         ("email", JStr ("test2_" ++ str_of_int timestamp ++ "@example.com"));
         ("password", JStr "password123")].

(** *** The texts the script sends *)

Definition post_text : string :=
  "This is a test post created by the automated test suite!".

Definition comment_text : string := "This is a test comment!".

Definition updated_text : string :=
  "This post has been updated by the test suite!".

Definition dummy_token : string := "dummy_token_for_testing".

(** *** Backends to run the script against *)

(** A scripted backend answers the calls it receives with the outcomes
    listed, in order, and is unreachable once the list is used up. *)
Definition scripted (rq : request) (script : list outcome)
  : outcome * list outcome :=
  match script with
  | o :: rest => (o, rest)
  | [] => (Unreachable, [])
  end.

Definition reply (status : Z) (body : json) : outcome :=
  Responded (mkResponse status (Some body) "").

Definition reply_text (status : Z) (body : string) : outcome :=
  Responded (mkResponse status None body).

(** The answers of a backend on which the account stays unverified (the
    confirmation token is the dummy one), so the second login is refused
    and the rest of the script runs on the token issued at registration.
    [fetched] is the text the backend reports when the post is fetched. *)
Definition user_json (timestamp : Z) : json :=
  JDict [("id", JStr "u1");
         ("username", JStr ("testuser_" ++ str_of_int timestamp));
         ("email", JStr ("test_" ++ str_of_int timestamp ++ "@example.com"))].

Definition post_json (txt : string) : json :=
  JDict [("id", JStr "p1"); ("text", JStr txt);
         ("created_at", JStr "2024-01-01T00:00:00")].

Definition unverified_run (timestamp : Z) (fetched : string) : list outcome :=
  [ reply 201 (JDict [("user", user_json timestamp); ("token", JStr "tok-1")]);
    reply 401 (JDict [("detail", JStr "Please verify your email before logging in")]);
    reply 200 (JDict [("message", JStr "Verification email sent")]);
    reply 400 (JDict [("detail", JStr "Invalid or expired verification token")]);
    Responded (mkResponse 401 (Some (JDict [("detail", JStr "Please verify your email before logging in")])) "{...}");
    reply 200 (JDict [("user", user_json timestamp)]);
    reply 201 (post_json post_text);
    reply 200 (JList [post_json post_text]);
    reply 200 (post_json fetched);
    reply 200 (post_json updated_text);
    reply 201 (JDict [("id", JStr "c1"); ("text", JStr comment_text);
                      ("post_id", JStr "p1");
                      ("created_at", JStr "2024-01-01T00:00:01")]);
    reply 200 (JList []);
    reply 201 (JDict [("id", JStr "l1"); ("post_id", JStr "p1");
                      ("user_id", JStr "u1")]);
    reply_text 204 "";
    reply 401 (JDict [("detail", JStr "Invalid credentials")]);
    reply 400 (JDict [("detail", JStr "Email already registered")]);
    reply 401 (JDict [("detail", JStr "Invalid token")]);
    reply 404 (JDict [("detail", JStr "Post not found")]);
    reply 422 (JDict [("detail", JList [])]);
    reply 400 (JDict [("detail", JStr "Password too short")]) ].

Definition ts0 : Z := 1700000000.

(** ** Vocabulary of the statements *)

(** A detail that carries a message containing [phrase]: the message
    itself, or a list holding it, or an object keyed by it. *)
Definition carries (phrase : string) (detail : json) : Prop :=
  match detail with
  | JStr s => str_in phrase s = true
  | JList xs => exists s, In (JStr s) xs /\ str_in phrase s = true
  | JDict kv => exists k v, In (k, v) kv /\ str_in phrase k = true
  | _ => False
  end.

(** What [test_registration] needs of the answer to the registration
    call: status 201, and a body holding a token and a user id, neither
    of them null. *)
Definition registration_accepted (o : outcome) (token uid : json) : Prop :=
  exists r data user,
    o = Responded r /\ status_code r = 201 /\ json_body r = Some data /\
    py_get data "token" JNull = Ok token /\
    py_get data "user" (JDict []) = Ok user /\
    py_get user "id" JNull = Ok uid /\
    token <> JNull /\ uid <> JNull.

(** A request that carries no credentials, or the token [tok] as bearer,
    or the deliberately invalid bearer of the error cases. *)
Definition authorised_by (tok : json) (rq : request) : Prop :=
  rq_headers rq = [] \/
  rq_headers rq = [("Authorization", [Lit "Bearer "; StrOf tok])] \/
  rq_headers rq = [("Authorization", [Lit "Bearer invalid_token"])].

(** A request to the confirmation endpoint carries the dummy token. *)
Definition confirms_with_dummy (rq : request) : Prop :=
  forall rest,
    rq_url rq = Lit API_BASE :: Lit "/email-verification/confirm?token=" :: rest ->
    rest = [Lit dummy_token].

(** What the two refusal checks need of an answer. *)
Definition refused_with (status : Z) (phrase : string) (o : outcome) : Prop :=
  exists r data detail,
    o = Responded r /\ status_code r = status /\ json_body r = Some data /\
    py_get data "detail" (JStr "") = Ok detail /\
    carries phrase detail.

(** What the script runs against: a backend, which is a black box with a
    state of its own, and the clock, read once when the module is loaded
    ([int(time.time())]). *)
Class Setting : Type := {
  backend : Type;
  serve : request -> backend -> outcome * backend;
  timestamp : Z
}.

Section Harness.

Context {setting : Setting}.

Definition test_user : json := test_user_of timestamp.
Definition test_user2 : json := test_user2_of timestamp.

(** *** The world: module globals, backend, wire log, output *)

Record world : Type := mkWorld {
  auth_token : json;
  user_id : json;
  post_id : json;
  comment_id : json;
  verification_token : json;
  server : backend;
  sent : list request;
  printed : list event
}.

Definition initial (b : backend) : world :=
  mkWorld JNull JNull JNull JNull JNull b [] [].

Definition M (A : Type) : Type := world -> result A * world.

Definition ret {A} (a : A) : M A := fun w => (Ok a, w).

Definition bind {A B} (m : M A) (k : A -> M B) : M B :=
  fun w => match m w with
           | (Ok a, w') => k a w'
           | (Raise e, w') => (Raise e, w')
           end.

Definition raise {A} (e : exn) : M A := fun w => (Raise e, w).

Definition lift {A} (r : result A) : M A := fun w => (r, w).

Definition try_except {A} (m : M A) (handler : exn -> M A) : M A :=
  fun w => match m w with
           | (Ok a, w') => (Ok a, w')
           | (Raise e, w') => handler e w'
           end.

Notation "x <- m ;; k" := (bind m (fun x => k))
  (at level 61, m at next level, right associativity).
Notation "m ;; k" := (bind m (fun _ => k))
  (at level 61, right associativity).

Definition emit (ev : event) : M unit :=
  fun w => (Ok tt,
            mkWorld (auth_token w) (user_id w) (post_id w) (comment_id w)
                    (verification_token w) (server w) (sent w)
                    (printed w ++ [ev])).

Definition print (line : fstring) : M unit := emit (Print line).

Definition assert (cond : bool) (msg : fstring) : M unit :=
  if cond then ret tt else raise (AssertionError msg).

Definition set_auth_token (v : json) : M unit :=
  fun w => (Ok tt,
            mkWorld v (user_id w) (post_id w) (comment_id w)
                    (verification_token w) (server w) (sent w) (printed w)).

Definition set_user_id (v : json) : M unit :=
  fun w => (Ok tt,
            mkWorld (auth_token w) v (post_id w) (comment_id w)
                    (verification_token w) (server w) (sent w) (printed w)).

Definition set_post_id (v : json) : M unit :=
  fun w => (Ok tt,
            mkWorld (auth_token w) (user_id w) v (comment_id w)
                    (verification_token w) (server w) (sent w) (printed w)).

Definition set_comment_id (v : json) : M unit :=
  fun w => (Ok tt,
            mkWorld (auth_token w) (user_id w) (post_id w) v
                    (verification_token w) (server w) (sent w) (printed w)).

Definition read {A} (f : world -> A) : M A := fun w => (Ok (f w), w).

(** One call of [requests.get/post/put/delete]. *)
Definition http (rq : request) : M response :=
  fun w =>
    let (o, b') := serve rq (server w) in
    let w' := mkWorld (auth_token w) (user_id w) (post_id w) (comment_id w)
                      (verification_token w) b' (sent w ++ [rq]) (printed w) in
    match o with
    | Responded r => (Ok r, w')
    | Unreachable => (Raise ConnectionError, w')
    | Broken => (Raise RequestException, w')
    end.

(** [response.json()] *)
Definition json_of (r : response) : M json :=
  match json_body r with
  | Some d => ret d
  | None => raise JSONDecodeError
  end.

Definition bearer (token : json) : list (string * fstring) :=
  [("Authorization", [Lit "Bearer "; StrOf token])].

Definition print_status (r : response) : M unit :=
  print [Lit "Status: "; IntOf (status_code r)].

Definition print_response (data : json) : M unit :=
  print [Lit "Response: "; Dumps data].

(** *** The helpers *)

Definition rule : string := repeat_str "=" 60.

Definition print_test_header (test_name : string) : M unit :=
  print [Lit (String "010" rule)] ;;
  print [Lit "🧪 "; Lit test_name] ;;
  print [Lit rule].

Definition print_test_result (success : bool) (message : string) : M unit :=
  if success
  then print [Lit "✅ "; Lit message]
  else print [Lit "❌ "; Lit message].

Definition cleanup_test_data : M unit :=
  print [Lit (String "010" "🧹 Cleaning up test data...")] ;;
  print [Lit "✅ Test data cleanup completed"].

(** *** The steps *)

Definition test_registration : M bool :=
  print_test_header "User Registration" ;;
  response <- http (mkRequest POST [Lit API_BASE; Lit "/register"]
                              (Some test_user) []) ;;
  print_status response ;;
  assert (status_code response =? 201)
         [Lit "Registration failed with status "; IntOf (status_code response)] ;;
  data <- json_of response ;;
  token <- lift (py_get data "token" JNull) ;;
  set_auth_token token ;;
  user <- lift (py_get data "user" (JDict [])) ;;
  uid <- lift (py_get user "id" JNull) ;;
  set_user_id uid ;;
  tok <- read auth_token ;;
  assert (negb (is_none tok)) [Lit "No token received"] ;;
  uid' <- read user_id ;;
  assert (negb (is_none uid')) [Lit "No user ID received"] ;;
  print_response data ;;
  print_test_result true "Registration successful!" ;;
  ret true.

Definition test_login_before_verification : M bool :=
  print_test_header "User Login Before Email Verification" ;;
  response <- http (mkRequest POST [Lit API_BASE; Lit "/login"]
                              (Some test_user) []) ;;
  print_status response ;;
  assert (status_code response =? 401)
         [Lit "Login should fail before verification, got ";
          IntOf (status_code response)] ;;
  data <- json_of response ;;
  detail <- lift (py_get data "detail" (JStr "")) ;;
  found <- lift (py_in "Please verify your email" detail) ;;
  assert found [Lit "Wrong error message"] ;;
  print_response data ;;
  print_test_result true "Login correctly blocked - email not verified!" ;;
  ret true.

Definition test_email_verification_request : M bool :=
  print_test_header "Email Verification Request" ;;
  email <- lift (py_getitem test_user "email") ;;
  let verification_data := JDict [("email", email)] in
  response <- http (mkRequest POST
                              [Lit API_BASE; Lit "/email-verification/request"]
                              (Some verification_data) []) ;;
  print_status response ;;
  assert (status_code response =? 200)
         [Lit "Email verification request failed with status ";
          IntOf (status_code response)] ;;
  data <- json_of response ;;
  found <- lift (py_in "message" data) ;;
  assert found [Lit "No message in response"] ;;
  print_response data ;;
  print_test_result true "Email verification request successful!" ;;
  ret true.

Definition test_email_verification_confirm : M bool :=
  print_test_header "Email Verification Confirmation" ;;
  response <- http (mkRequest POST
                              [Lit API_BASE;
                               Lit "/email-verification/confirm?token=";
                               Lit dummy_token]
                              None []) ;;
  print_status response ;;
  assert (status_code response =? 400)
         [Lit "Invalid token should be rejected, got ";
          IntOf (status_code response)] ;;
  data <- json_of response ;;
  detail <- lift (py_get data "detail" (JStr "")) ;;
  found <- lift (py_in "Invalid or expired" detail) ;;
  assert found [Lit "Wrong error message for invalid token"] ;;
  print_response data ;;
  print_test_result true "Invalid token correctly rejected!" ;;
  print [Lit "Note: In real testing, you'd use a valid token from the database"] ;;
  ret true.

Definition test_login : M bool :=
  print_test_header "User Login After Email Verification" ;;
  response <- http (mkRequest POST [Lit API_BASE; Lit "/login"]
                              (Some test_user) []) ;;
  print_status response ;;
  if status_code response =? 200 then
    data <- json_of response ;;
    token <- lift (py_get data "token" JNull) ;;
    set_auth_token token ;;
    user <- lift (py_get data "user" (JDict [])) ;;
    uid <- lift (py_get user "id" JNull) ;;
    set_user_id uid ;;
    tok <- read auth_token ;;
    assert (negb (is_none tok)) [Lit "No token received"] ;;
    uid' <- read user_id ;;
    assert (negb (is_none uid')) [Lit "No user ID received"] ;;
    print_response data ;;
    print_test_result true "Login successful!" ;;
    ret true
  else
    print [Lit "Response: "; Lit (text response)] ;;
    print_test_result false "Login failed - email not verified yet" ;;
    ret false.

Definition test_profile : M bool :=
  print_test_header "User Profile" ;;
  tok <- read auth_token ;;
  assert (negb (is_none tok)) [Lit "No auth token available"] ;;
  let headers := bearer tok in
  response <- http (mkRequest GET [Lit API_BASE; Lit "/profile"] None headers) ;;
  print_status response ;;
  if status_code response =? 200 then
    data <- json_of response ;;
    found <- lift (py_in "user" data) ;;
    assert found [Lit "No user data in response"] ;;
    user <- lift (py_getitem data "user") ;;
    email <- lift (py_getitem user "email") ;;
    expected <- lift (py_getitem test_user "email") ;;
    assert (py_eq email expected) [Lit "Wrong user email"] ;;
    print_response data ;;
    print_test_result true "Profile retrieved successfully!" ;;
    ret true
  else
    print [Lit "Response: "; Lit (text response)] ;;
    print_test_result false "Profile retrieval failed!" ;;
    ret false.

Definition test_create_post : M bool :=
  print_test_header "Create Post" ;;
  tok <- read auth_token ;;
  assert (negb (is_none tok)) [Lit "No auth token available"] ;;
  let post_data := JDict [("text", JStr post_text)] in
  let headers := bearer tok in
  response <- http (mkRequest POST [Lit API_BASE; Lit "/posts"]
                              (Some post_data) headers) ;;
  print_status response ;;
  assert (status_code response =? 201)
         [Lit "Post creation failed with status "; IntOf (status_code response)] ;;
  data <- json_of response ;;
  pid <- lift (py_get data "id" JNull) ;;
  set_post_id pid ;;
  pid' <- read post_id ;;
  assert (negb (is_none pid')) [Lit "No post ID received"] ;;
  got <- lift (py_getitem data "text") ;;
  sent_text <- lift (py_getitem post_data "text") ;;
  assert (py_eq got sent_text) [Lit "Post text doesn't match"] ;;
  found <- lift (py_in "created_at" data) ;;
  assert found [Lit "No created_at timestamp"] ;;
  print_response data ;;
  print_test_result true "Post creation successful!" ;;
  ret true.

Definition test_get_all_posts : M bool :=
  print_test_header "Get All Posts" ;;
  response <- http (mkRequest GET [Lit API_BASE; Lit "/posts"] None []) ;;
  print_status response ;;
  assert (status_code response =? 200)
         [Lit "Get posts failed with status "; IntOf (status_code response)] ;;
  data <- json_of response ;;
  assert (is_list data) [Lit "Response should be a list"] ;;
  n <- lift (py_len data) ;;
  print [Lit "Found "; IntOf n; Lit " posts"] ;;
  print_response data ;;
  print_test_result true "Get all posts successful!" ;;
  ret true.

Definition test_get_single_post : M bool :=
  print_test_header "Get Single Post" ;;
  pid <- read post_id ;;
  assert (negb (is_none pid)) [Lit "No post ID available"] ;;
  response <- http (mkRequest GET [Lit API_BASE; Lit "/posts/"; StrOf pid]
                              None []) ;;
  print_status response ;;
  assert (status_code response =? 200)
         [Lit "Get single post failed with status ";
          IntOf (status_code response)] ;;
  data <- json_of response ;;
  got_id <- lift (py_getitem data "id") ;;
  assert (py_eq got_id pid) [Lit "Wrong post ID"] ;;
  has_text <- lift (py_in "text" data) ;;
  assert has_text [Lit "No text in post"] ;;
  has_created <- lift (py_in "created_at" data) ;;
  assert has_created [Lit "No created_at timestamp"] ;;
  print_response data ;;
  print_test_result true "Get single post successful!" ;;
  ret true.

Definition test_create_comment : M bool :=
  print_test_header "Create Comment" ;;
  tok <- read auth_token ;;
  assert (negb (is_none tok)) [Lit "No auth token available"] ;;
  pid <- read post_id ;;
  assert (negb (is_none pid)) [Lit "No post ID available"] ;;
  let comment_data := JDict [("text", JStr comment_text)] in
  let headers := bearer tok in
  response <- http (mkRequest POST
                              [Lit API_BASE; Lit "/comments?post_id="; StrOf pid]
                              (Some comment_data) headers) ;;
  print_status response ;;
  assert (status_code response =? 201)
         [Lit "Comment creation failed with status ";
          IntOf (status_code response)] ;;
  data <- json_of response ;;
  cid <- lift (py_get data "id" JNull) ;;
  set_comment_id cid ;;
  cid' <- read comment_id ;;
  assert (negb (is_none cid')) [Lit "No comment ID received"] ;;
  got <- lift (py_getitem data "text") ;;
  sent_text <- lift (py_getitem comment_data "text") ;;
  assert (py_eq got sent_text) [Lit "Comment text doesn't match"] ;;
  got_pid <- lift (py_getitem data "post_id") ;;
  assert (py_eq got_pid pid) [Lit "Wrong post ID in comment"] ;;
  found <- lift (py_in "created_at" data) ;;
  assert found [Lit "No created_at timestamp"] ;;
  print_response data ;;
  print_test_result true "Comment creation successful!" ;;
  ret true.

Definition test_get_comments : M bool :=
  print_test_header "Get Comments" ;;
  pid <- read post_id ;;
  assert (negb (is_none pid)) [Lit "No post ID available"] ;;
  response <- http (mkRequest GET
                              [Lit API_BASE; Lit "/"; StrOf pid; Lit "/comments"]
                              None []) ;;
  print_status response ;;
  assert (status_code response =? 200)
         [Lit "Get comments failed with status "; IntOf (status_code response)] ;;
  data <- json_of response ;;
  assert (is_list data) [Lit "Response should be a list"] ;;
  n <- lift (py_len data) ;;
  print [Lit "Found "; IntOf n; Lit " comments"] ;;
  print_response data ;;
  print_test_result true "Get comments successful!" ;;
  ret true.

Definition test_like_post : M bool :=
  print_test_header "Like Post" ;;
  tok <- read auth_token ;;
  assert (negb (is_none tok)) [Lit "No auth token available"] ;;
  pid <- read post_id ;;
  assert (negb (is_none pid)) [Lit "No post ID available"] ;;
  let headers := bearer tok in
  response <- http (mkRequest POST
                              [Lit API_BASE; Lit "/likes?post_id="; StrOf pid]
                              None headers) ;;
  print_status response ;;
  assert (status_code response =? 201)
         [Lit "Like post failed with status "; IntOf (status_code response)] ;;
  data <- json_of response ;;
  has_id <- lift (py_in "id" data) ;;
  assert has_id [Lit "No like ID received"] ;;
  got_pid <- lift (py_getitem data "post_id") ;;
  assert (py_eq got_pid pid) [Lit "Wrong post ID in like"] ;;
  got_uid <- lift (py_getitem data "user_id") ;;
  uid <- read user_id ;;
  assert (py_eq got_uid uid) [Lit "Wrong user ID in like"] ;;
  print_response data ;;
  print_test_result true "Post liked successfully!" ;;
  ret true.

Definition test_unlike_post : M bool :=
  print_test_header "Unlike Post" ;;
  tok <- read auth_token ;;
  assert (negb (is_none tok)) [Lit "No auth token available"] ;;
  pid <- read post_id ;;
  assert (negb (is_none pid)) [Lit "No post ID available"] ;;
  let headers := bearer tok in
  response <- http (mkRequest DELETE
                              [Lit API_BASE; Lit "/likes?post_id="; StrOf pid]
                              None headers) ;;
  print_status response ;;
  assert (status_code response =? 204)
         [Lit "Unlike post failed with status "; IntOf (status_code response)] ;;
  print_test_result true "Post unliked successfully!" ;;
  ret true.

Definition test_update_post : M bool :=
  print_test_header "Update Post" ;;
  tok <- read auth_token ;;
  assert (negb (is_none tok)) [Lit "No auth token available"] ;;
  pid <- read post_id ;;
  assert (negb (is_none pid)) [Lit "No post ID available"] ;;
  let update_data := JDict [("text", JStr updated_text)] in
  let headers := bearer tok in
  response <- http (mkRequest PUT [Lit API_BASE; Lit "/posts/"; StrOf pid]
                              (Some update_data) headers) ;;
  print_status response ;;
  assert (status_code response =? 200)
         [Lit "Update post failed with status "; IntOf (status_code response)] ;;
  data <- json_of response ;;
  got <- lift (py_getitem data "text") ;;
  sent_text <- lift (py_getitem update_data "text") ;;
  assert (py_eq got sent_text) [Lit "Post text not updated"] ;;
  got_id <- lift (py_getitem data "id") ;;
  assert (py_eq got_id pid) [Lit "Wrong post ID"] ;;
  print_response data ;;
  print_test_result true "Post update successful!" ;;
  ret true.

Definition invalid_login : json :=
  JDict [("email", JStr "wrong@email.com"); ("password", JStr "wrongpass")].

Definition test_error_cases : M unit :=
  print_test_header "Error Cases" ;;
  print [Lit (String "010" "--- Testing Invalid Login ---")] ;;
  response <- http (mkRequest POST [Lit API_BASE; Lit "/login"]
                              (Some invalid_login) []) ;;
  print_status response ;;
  assert (status_code response =? 401) [Lit "Invalid login should be rejected"] ;;
  print_test_result true "Invalid login correctly rejected" ;;
  print [Lit (String "010" "--- Testing Duplicate Registration ---")] ;;
  response <- http (mkRequest POST [Lit API_BASE; Lit "/register"]
                              (Some test_user) []) ;;
  print_status response ;;
  assert (status_code response =? 400)
         [Lit "Duplicate registration should be rejected"] ;;
  print_test_result true "Duplicate registration correctly rejected" ;;
  print [Lit (String "010" "--- Testing Invalid Token ---")] ;;
  let headers := [("Authorization", [Lit "Bearer invalid_token"])] in
  response <- http (mkRequest GET [Lit API_BASE; Lit "/profile"] None headers) ;;
  print_status response ;;
  assert (status_code response =? 401) [Lit "Invalid token should be rejected"] ;;
  print_test_result true "Invalid token correctly rejected" ;;
  print [Lit (String "010" "--- Testing Non-existent Post ---")] ;;
  response <- http (mkRequest GET [Lit API_BASE; Lit "/posts/non-existent-id"]
                              None []) ;;
  print_status response ;;
  assert (status_code response =? 404)
         [Lit "Non-existent post should return 404"] ;;
  print_test_result true "Non-existent post correctly handled".

Definition bad_email_data : json :=
  JDict [("username", JStr "testuser3");
         ("email", JStr "invalid-email");
         ("password", JStr "password123")].

Definition short_password_data : json :=
  JDict [("username", JStr "testuser3");
         ("email", JStr "test3@example.com");
         ("password", JStr "123")].

Definition test_validation_errors : M unit :=
  print_test_header "Input Validation" ;;
  print [Lit (String "010" "--- Testing Invalid Email ---")] ;;
  response <- http (mkRequest POST [Lit API_BASE; Lit "/register"]
                              (Some bad_email_data) []) ;;
  print_status response ;;
  assert (status_code response =? 422) [Lit "Invalid email should be rejected"] ;;
  print_test_result true "Invalid email format correctly rejected" ;;
  print [Lit (String "010" "--- Testing Short Password ---")] ;;
  response <- http (mkRequest POST [Lit API_BASE; Lit "/register"]
                              (Some short_password_data) []) ;;
  print_status response ;;
  assert (status_code response =? 400) [Lit "Short password should be rejected"] ;;
  print_test_result true "Short password correctly rejected".

(** *** main *)

(** A call made for its effects: the value returned is dropped. *)
Definition call {A} (m : M A) : M unit := m ;; ret tt.

(** The calls of the [try] block, in the order written. *)
Definition test_steps : list (M unit) :=
  [ call test_registration;
    call test_login_before_verification;
    call test_email_verification_request;
    call test_email_verification_confirm;
    call test_login;
    call test_profile;
    call test_create_post;
    call test_get_all_posts;
    call test_get_single_post;
    call test_update_post;
    call test_create_comment;
    call test_get_comments;
    call test_like_post;
    call test_unlike_post;
    call test_error_cases;
    call test_validation_errors ].

Fixpoint run_all (steps : list (M unit)) : M unit :=
  match steps with
  | [] => ret tt
  | s :: rest => s ;; run_all rest
  end.

Definition print_summary : M unit :=
  print [Lit (String "010" rule)] ;;
  print [Lit "🎉 All tests completed successfully!"] ;;
  print [Lit rule] ;;
  print [Lit (String "010" "📝 Notes:")] ;;
  print [Lit "- Email verification tests use dummy tokens"] ;;
  print [Lit "- For complete testing, manually verify email or extract token from database"] ;;
  print [Lit "- Some tests may fail until email verification is complete"].

Definition try_block : M unit :=
  run_all test_steps ;;
  print_summary ;;
  cleanup_test_data.

(** The three [except] clauses, tried in order. *)
Definition handler (e : exn) : M unit :=
  match e with
  | ConnectionError =>
      print [Lit "❌ Could not connect to "; Lit BASE_URL] ;;
      print [Lit "Make sure your backend server is running!"] ;;
      print [Lit "Run: uvicorn app.main:app --reload"]
  | AssertionError _ =>
      emit (PrintWith "❌ Test assertion failed: " e) ;;
      emit (PrintExc e)
  | _ =>
      emit (PrintWith "❌ Test error: " e) ;;
      emit (PrintExc e)
  end.

Definition banner : M unit :=
  print [Lit "🚀 Starting Comprehensive Backend API Tests"] ;;
  print [Lit "Testing against: "; Lit BASE_URL] ;;
  print [Lit rule].

Definition main : M unit :=
  banner ;;
  try_except try_block handler.

(** *** Vocabulary for statements about a run *)

(** The world in which the [try] block is entered. *)
Definition started (b : backend) : world := snd (banner (initial b)).

(** [reaches b k w]: against backend [b] the first [k] calls of the
    [try] block returned, leaving the world [w]. *)
Definition reaches (b : backend) (k : nat) (w : world) : Prop :=
  run_all (firstn k test_steps) (started b) = (Ok tt, w).

(** The outcome of sending [rq] in world [w]. *)
Definition answer (rq : request) (w : world) : outcome :=
  fst (serve rq (server w)).

Definition register_request : request :=
  mkRequest POST [Lit API_BASE; Lit "/register"] (Some test_user) [].

Definition login_request : request :=
  mkRequest POST [Lit API_BASE; Lit "/login"] (Some test_user) [].

Definition confirm_request (token : string) : request :=
  mkRequest POST
            [Lit API_BASE; Lit "/email-verification/confirm?token="; Lit token]
            None [].

Definition profile_request (tok : json) : request :=
  mkRequest GET [Lit API_BASE; Lit "/profile"] None (bearer tok).

Definition create_post_request (tok : json) : request :=
  mkRequest POST [Lit API_BASE; Lit "/posts"]
            (Some (JDict [("text", JStr post_text)])) (bearer tok).

Definition list_posts_request : request :=
  mkRequest GET [Lit API_BASE; Lit "/posts"] None [].

Definition get_post_request (pid : json) : request :=
  mkRequest GET [Lit API_BASE; Lit "/posts/"; StrOf pid] None [].

Definition update_post_request (tok pid : json) : request :=
  mkRequest PUT [Lit API_BASE; Lit "/posts/"; StrOf pid]
            (Some (JDict [("text", JStr updated_text)])) (bearer tok).

Definition invalid_login_request : request :=
  mkRequest POST [Lit API_BASE; Lit "/login"] (Some invalid_login) [].

Definition invalid_token_request : request :=
  mkRequest GET [Lit API_BASE; Lit "/profile"] None
            [("Authorization", [Lit "Bearer invalid_token"])].

Definition missing_post_request : request :=
  mkRequest GET [Lit API_BASE; Lit "/posts/non-existent-id"] None [].

Definition bad_email_request : request :=
  mkRequest POST [Lit API_BASE; Lit "/register"] (Some bad_email_data) [].

Definition short_password_request : request :=
  mkRequest POST [Lit API_BASE; Lit "/register"] (Some short_password_data) [].

(** The answers [test_error_cases] needs, call after call. *)
Definition error_cases_answered (w : world) : Prop :=
  exists r1 b1 r2 b2 r3 b3 r4 b4,
    serve invalid_login_request (server w) = (Responded r1, b1) /\
    status_code r1 = 401 /\
    serve register_request b1 = (Responded r2, b2) /\
    status_code r2 = 400 /\
    serve invalid_token_request b2 = (Responded r3, b3) /\
    status_code r3 = 401 /\
    serve missing_post_request b3 = (Responded r4, b4) /\
    status_code r4 = 404.

(** The answers [test_validation_errors] needs. *)
Definition validation_answered (w : world) : Prop :=
  exists r1 b1 r2 b2,
    serve bad_email_request (server w) = (Responded r1, b1) /\
    status_code r1 = 422 /\
    serve short_password_request b1 = (Responded r2, b2) /\
    status_code r2 = 400.

(** What [test_create_post] needs of the answer to the creation call. *)
Definition creation_accepted (o : outcome) (pid : json) : Prop :=
  exists r data txt,
    o = Responded r /\ status_code r = 201 /\ json_body r = Some data /\
    py_get data "id" JNull = Ok pid /\ pid <> JNull /\
    py_getitem data "text" = Ok txt /\ py_eq txt (JStr post_text) = true /\
    py_in "created_at" data = Ok true.

(** What [test_get_single_post] needs of the answer to the fetch. *)
Definition fetch_accepted (o : outcome) (pid : json) : Prop :=
  exists r data got,
    o = Responded r /\ status_code r = 200 /\ json_body r = Some data /\
    py_getitem data "id" = Ok got /\ py_eq got pid = true /\
    py_in "text" data = Ok true /\
    py_in "created_at" data = Ok true.

(** What [test_update_post] needs of the answer to the update call. *)
Definition update_accepted (o : outcome) (pid : json) : Prop :=
  exists r data txt got,
    o = Responded r /\ status_code r = 200 /\ json_body r = Some data /\
    py_getitem data "text" = Ok txt /\ py_eq txt (JStr updated_text) = true /\
    py_getitem data "id" = Ok got /\ py_eq got pid = true.

(** The module globals are as [w] left them. *)
Definition same_globals (w w' : world) : Prop :=
  auth_token w' = auth_token w /\ user_id w' = user_id w /\
  post_id w' = post_id w /\ comment_id w' = comment_id w /\
  verification_token w' = verification_token w.

(** [w'] has sent what [w] had sent and then requests that satisfy [P]. *)
Definition extends_with (P : request -> Prop) (w w' : world) : Prop :=
  exists new, sent w' = (sent w ++ new)%list /\ Forall P new.

(** From [test_profile] on, the token stays what it was and every
    request carries it, or nothing, or the invalid bearer. *)
Definition keeps_token (w w' : world) : Prop :=
  auth_token w' = auth_token w /\
  extends_with (authorised_by (auth_token w)) w w'.

(** The calls that follow [test_login] in the [try] block. *)
Definition after_login : M unit :=
  run_all (skipn 5 test_steps) ;;
  print_summary ;;
  cleanup_test_data.

(** What the handlers write for an exception. *)
Definition connection_report : list event :=
  [Print [Lit "❌ Could not connect to "; Lit BASE_URL];
   Print [Lit "Make sure your backend server is running!"];
   Print [Lit "Run: uvicorn app.main:app --reload"]].

Definition assertion_report (e : exn) : list event :=
  [PrintWith "❌ Test assertion failed: " e; PrintExc e].

Definition error_report (e : exn) : list event :=
  [PrintWith "❌ Test error: " e; PrintExc e].

Definition is_assertion (e : exn) : bool :=
  match e with AssertionError _ => true | _ => false end.

Definition is_connection (e : exn) : bool :=
  match e with ConnectionError => true | _ => false end.

(** *** Vocabulary for the remaining steps *)

Definition verification_request : request :=
  mkRequest POST [Lit API_BASE; Lit "/email-verification/request"]
            (Some (JDict [("email",
                           JStr ("test_" ++ str_of_int timestamp ++ "@example.com"))]))
            [].

Definition comment_request (tok pid : json) : request :=
  mkRequest POST [Lit API_BASE; Lit "/comments?post_id="; StrOf pid]
            (Some (JDict [("text", JStr comment_text)])) (bearer tok).

Definition comments_request (pid : json) : request :=
  mkRequest GET [Lit API_BASE; Lit "/"; StrOf pid; Lit "/comments"] None [].

Definition like_request (tok pid : json) : request :=
  mkRequest POST [Lit API_BASE; Lit "/likes?post_id="; StrOf pid] None (bearer tok).

Definition unlike_request (tok pid : json) : request :=
  mkRequest DELETE [Lit API_BASE; Lit "/likes?post_id="; StrOf pid] None
            (bearer tok).

(** An answer with the given status, whatever its body. *)
Definition answered_with (status : Z) (o : outcome) : Prop :=
  exists r, o = Responded r /\ status_code r = status.

(** What [test_email_verification_request] needs of the answer. *)
Definition acknowledged (o : outcome) : Prop :=
  exists r data,
    o = Responded r /\ status_code r = 200 /\ json_body r = Some data /\
    py_in "message" data = Ok true.

(** What the two listing steps need of the answer: status 200 and a JSON
    array. *)
Definition listed (o : outcome) : Prop :=
  exists r items,
    o = Responded r /\ status_code r = 200 /\ json_body r = Some (JList items).

(** What [test_login] needs of an answer with status 200. *)
Definition login_granted (o : outcome) (token uid : json) : Prop :=
  exists r data user,
    o = Responded r /\ status_code r = 200 /\ json_body r = Some data /\
    py_get data "token" JNull = Ok token /\
    py_get data "user" (JDict []) = Ok user /\
    py_get user "id" JNull = Ok uid /\
    token <> JNull /\ uid <> JNull.

(** What [test_profile] needs of an answer with status 200: a user whose
    email is the one registered. *)
Definition profile_shown (o : outcome) : Prop :=
  exists r data user email,
    o = Responded r /\ status_code r = 200 /\ json_body r = Some data /\
    py_in "user" data = Ok true /\
    py_getitem data "user" = Ok user /\
    py_getitem user "email" = Ok email /\
    py_eq email (JStr ("test_" ++ str_of_int timestamp ++ "@example.com")) = true.

(** What [test_create_comment] needs of the answer. *)
Definition comment_accepted (o : outcome) (pid cid : json) : Prop :=
  exists r data txt got,
    o = Responded r /\ status_code r = 201 /\ json_body r = Some data /\
    py_get data "id" JNull = Ok cid /\ cid <> JNull /\
    py_getitem data "text" = Ok txt /\ py_eq txt (JStr comment_text) = true /\
    py_getitem data "post_id" = Ok got /\ py_eq got pid = true /\
    py_in "created_at" data = Ok true.

(** What [test_like_post] needs of the answer. *)
Definition like_accepted (o : outcome) (pid uid : json) : Prop :=
  exists r data got_pid got_uid,
    o = Responded r /\ status_code r = 201 /\ json_body r = Some data /\
    py_in "id" data = Ok true /\
    py_getitem data "post_id" = Ok got_pid /\ py_eq got_pid pid = true /\
    py_getitem data "user_id" = Ok got_uid /\ py_eq got_uid uid = true.

(** The steps that need a token, and those that need a post id. *)
Definition token_steps : list (M bool) :=
  [test_profile; test_create_post; test_update_post; test_create_comment;
   test_like_post; test_unlike_post].

Definition post_steps : list (M bool) :=
  [test_get_single_post; test_update_post; test_create_comment;
   test_get_comments; test_like_post; test_unlike_post].

(** The requests of a run that goes through every call, given the token
    in use after [test_login] and the id of the post. *)
Definition full_trace (tok pid : json) : list request :=
  [register_request; login_request; verification_request;
   confirm_request dummy_token; login_request;
   profile_request tok; create_post_request tok; list_posts_request;
   get_post_request pid; update_post_request tok pid;
   comment_request tok pid; comments_request pid;
   like_request tok pid; unlike_request tok pid;
   invalid_login_request; register_request; invalid_token_request;
   missing_post_request; bad_email_request; short_password_request].

(** What is printed when printing is all that is done. *)
Definition prints (m : M unit) (lines : list event) : Prop :=
  forall w, exists w',
    m w = (Ok tt, w') /\ printed w' = (printed w ++ lines)%list /\
    sent w' = sent w /\ server w' = server w.

(** What [print_summary] and [cleanup_test_data] write. *)
Definition closing_lines : list event :=
  [Print [Lit (String "010" rule)];
   Print [Lit "🎉 All tests completed successfully!"];
   Print [Lit rule];
   Print [Lit (String "010" "📝 Notes:")];
   Print [Lit "- Email verification tests use dummy tokens"];
   Print [Lit "- For complete testing, manually verify email or extract token from database"];
   Print [Lit "- Some tests may fail until email verification is complete"];
   Print [Lit (String "010" "🧹 Cleaning up test data...")];
   Print [Lit "✅ Test data cleanup completed"]].

End Harness.

(** *** A scripted setting *)

Definition Scripted (ts : Z) : Setting :=
  {| backend := list outcome; serve := scripted; timestamp := ts |}.

Definition demo : Setting := Scripted ts0.

(** The world a scripted run is in after the first [k] calls of the
    [try] block. *)
Definition world_after (script : list outcome) (k : nat) : @world demo :=
  snd (@run_all demo (firstn k (@test_steps demo)) (@started demo script)).

(** A backend that keeps to the contract, and one that reports another
    text when the post is fetched. *)
Definition faithful_run : list outcome := unverified_run ts0 post_text.

Definition tampered_text : string := "Edited behind the script's back".

Definition tampered_run : list outcome := unverified_run ts0 tampered_text.

(** A backend that fails the registration, and one that cannot be reached. *)
Definition failing_run : list outcome :=
  [reply 500 (JDict [("detail", JStr "Internal Server Error")])].

Definition unreachable_run : list outcome := [].

(** A backend that registers the user and then fails. *)
Definition stalled_run : list outcome :=
  (firstn 1 faithful_run ++ [reply 500 (JDict [])])%list.

(** A backend that answers as the contract-keeping one up to the second
    login, and then shows a profile without a user. *)
Definition profile_broken_run : list outcome :=
  (firstn 5 faithful_run ++ [reply 200 (JDict [])])%list.

(** *** A backend that goes by the username *)

Definition test_username_of (timestamp : Z) : string :=
  "testuser_" ++ str_of_int timestamp.

Definition test_email_of (timestamp : Z) : string :=
  "test_" ++ str_of_int timestamp ++ "@example.com".

(** A request that submits the registered email under another username. *)
Definition other_username (timestamp : Z) (rq : request) : bool :=
  match rq_json rq with
  | Some payload =>
      match py_getitem payload "email", py_getitem payload "username" with
      | Ok (JStr e), Ok (JStr u) =>
          String.eqb e (test_email_of timestamp) &&
          negb (String.eqb u (test_username_of timestamp))
      | _, _ => false
      end
  | None => false
  end.

Definition other_username_request (timestamp : Z) : request :=
  mkRequest POST [Lit API_BASE; Lit "/register"]
            (Some (JDict [("username", JStr "someone_else");
                          ("email", JStr (test_email_of timestamp));
                          ("password", JStr "password123")]))
            [].

(** It registers the used email again whenever the username is new, and
    otherwise answers from the script. *)
Definition lenient (timestamp : Z) (rq : request) (script : list outcome)
  : outcome * list outcome :=
  if other_username timestamp rq
  then (reply 201 (JDict [("user", JDict [("id", JStr "u2")]);
                          ("token", JStr "tok-2")]),
        script)
  else scripted rq script.

Definition Lenient (ts : Z) : Setting :=
  {| backend := list outcome; serve := lenient ts; timestamp := ts |}.

Definition lenient_world_after (script : list outcome) (k : nat)
  : @world (Lenient ts0) :=
  snd (@run_all (Lenient ts0) (firstn k (@test_steps (Lenient ts0)))
                (@started (Lenient ts0) script)).

(** ** Properties of the script *)

Section Properties.

Context {setting : Setting}.

Notation "m ;; k" := (bind m (fun _ => k))
  (at level 61, right associativity).

(** Substrings *)

Lemma prefix_app (p s : string) :
  prefix p s = true <-> exists t, s = p ++ t.
Proof.
  revert s; induction p as [|c p IH]; intros s; simpl.
  - split; [intros _; exists s; reflexivity | intros _; now destruct s].
  - destruct s as [|d s].
    + split; [discriminate | intros [t H]; discriminate].
    + simpl. destruct (Ascii.ascii_dec c d) as [->|Hne].
      * rewrite IH. split; intros [t H]; exists t; congruence.
      * split; [discriminate | intros [t H]; congruence].
Qed.

Lemma str_in_spec (needle hay : string) :
  str_in needle hay = true <-> exists a b, hay = a ++ needle ++ b.
Proof.
  induction hay as [|c hay IH]; cbn [str_in].
  - rewrite orb_false_r, prefix_app. split.
    + intros [t H]. exists "", t. exact H.
    + intros [[|x a] [b H]]; [exists b; exact H | discriminate].
  - rewrite orb_true_iff, prefix_app, IH. split.
    + intros [[t H]|[a [b H]]].
      * exists "", t. exact H.
      * exists (String c a), b. simpl. now rewrite H.
    + intros [[|x a] [b H]].
      * left. exists b. exact H.
      * right. exists a, b. simpl in H. congruence.
Qed.

Lemma append_assoc (a b c : string) : (a ++ b) ++ c = a ++ b ++ c.
Proof. induction a as [|x a IH]; simpl; [reflexivity | now rewrite IH]. Qed.

Lemma str_in_trans (a b c : string) :
  str_in a b = true -> str_in b c = true -> str_in a c = true.
Proof.
  rewrite !str_in_spec. intros [p [q ->]] [r [s ->]].
  exists (r ++ p), (q ++ s). now rewrite !append_assoc.
Qed.

Lemma carries_weaken (short long : string) (detail : json) :
  str_in short long = true -> carries long detail -> carries short detail.
Proof.
  intros Hsl. destruct detail as [| | |s|xs|kv]; simpl; try tauto.
  - now apply str_in_trans.
  - intros [s [Hin Hs]]. exists s. split; [exact Hin|]. now apply (str_in_trans _ long).
  - intros [k [v [Hin Hk]]]. exists k, v. split; [exact Hin|]. now apply (str_in_trans _ long).
Qed.

Lemma lookup_In (k : string) (kv : list (string * json)) (v : json) :
  lookup k kv = Some v -> In (k, v) kv.
Proof.
  induction kv as [|[k' v'] kv IH]; simpl; [discriminate|].
  destruct (String.eqb_spec k k') as [->|Hne].
  - intros [= ->]. now left.
  - intros H. right. now apply IH.
Qed.

(** What a passed [phrase in detail] check says about [detail]. *)
Lemma py_in_carries (phrase : string) (detail : json) :
  py_in phrase detail = Ok true -> carries phrase detail.
Proof.
  assert (Hself : str_in phrase phrase = true).
  { apply str_in_spec. exists "", "". simpl.
    induction phrase as [|c p IH]; simpl; [reflexivity | now rewrite <- IH]. }
  destruct detail as [| | |s|xs|kv]; simpl; try discriminate.
  - now intros [= H].
  - intros [= H]. apply existsb_exists in H as [x [Hin Hx]].
    destruct x; simpl in Hx; try discriminate.
    apply String.eqb_eq in Hx as <-. now exists phrase.
  - destruct (lookup phrase kv) as [v|] eqn:Hl; [|discriminate].
    intros _. exists phrase, v. split; [now apply lookup_In | exact Hself].
Qed.


(** Unfolding of the monadic plumbing, leaving strings and tests alone. *)
Ltac plumb :=
  cbv beta iota zeta delta
    [bind ret raise lift assert print emit read http json_of call
     set_auth_token set_user_id set_post_id set_comment_id
     print_test_header print_test_result print_status print_response] in *;
  cbn [auth_token user_id post_id comment_id verification_token
       server sent printed fst snd
       py_getitem lookup String.eqb Ascii.eqb Bool.eqb negb] in *.

Lemma run_all_app (xs ys : list (M unit)) (w : world) :
  run_all (xs ++ ys) w =
  match run_all xs w with
  | (Ok _, w') => run_all ys w'
  | (Raise e, w') => (Raise e, w')
  end.
Proof.
  revert w; induction xs as [|x xs IH]; intros w; simpl.
  - reflexivity.
  - unfold bind. destruct (x w) as [[[]|e] w']; [apply IH | reflexivity].
Qed.

Lemma handler_returns (e : exn) (w : world) :
  exists w', handler e w = (Ok tt, w') /\
             sent w' = sent w /\ server w' = server w /\ same_globals w w'.
Proof.
  destruct e; unfold handler, same_globals; plumb; eexists; repeat split.
Qed.

(** A call of the [try] block that raises ends the run in the handler:
    the calls after it are not made. *)
Lemma main_stops (b : backend) (k : nat) (s : M unit) (w w' : world) (e : exn) :
  nth_error test_steps k = Some s ->
  reaches b k w ->
  s w = (Raise e, w') ->
  main (initial b) = handler e w'.
Proof.
  intros Hk Hreach Hs.
  unfold main, try_block, try_except.
  unfold bind at 1.
  unfold reaches, started in Hreach.
  destruct (banner (initial b)) as [[[]|e0] w1] eqn:Hb;
    [|unfold banner in Hb; plumb; discriminate].
  simpl in Hreach.
  apply nth_error_split in Hk as [pre [post [Hsplit Hlen]]].
  unfold bind at 1.
  rewrite Hsplit, run_all_app.
  rewrite Hsplit, <- Hlen, firstn_app, firstn_all, Nat.sub_diag in Hreach.
  simpl in Hreach. rewrite app_nil_r in Hreach.
  rewrite Hreach. simpl. unfold bind at 1. now rewrite Hs.
Qed.

Lemma is_none_true (v : json) : is_none v = true <-> v = JNull.
Proof. destruct v; simpl; split; congruence. Qed.

Lemma is_none_false (v : json) : is_none v = false <-> v <> JNull.
Proof. destruct v; simpl; split; congruence. Qed.

(** Case analysis on the next thing the run in the goal waits for. *)
Ltac branch :=
  match goal with
  | |- context [match ?x with _ => _ end] =>
      lazymatch x with
      | context [match _ with _ => _ end] => fail
      | _ => destruct x eqn:?; plumb
      end
  end.

(** Tests that were decided, as propositions. *)
Ltac facts :=
  repeat match goal with
    | H : negb _ = true |- _ => apply negb_true_iff in H
    | H : negb _ = false |- _ => apply negb_false_iff in H
    | H : (_ =? _) = true |- _ => apply Z.eqb_eq in H
    | H : (_ =? _) = false |- _ => apply Z.eqb_neq in H
    | H : is_none _ = true |- _ => apply is_none_true in H
    | H : is_none _ = false |- _ => apply is_none_false in H
    end.

Lemma test_registration_cases (w : world) :
  match test_registration w with
  | (Ok flag, w') =>
      flag = true /\
      sent w' = (sent w ++ [register_request])%list /\
      registration_accepted (answer register_request w) (auth_token w') (user_id w')
  | (Raise e, w') =>
      sent w' = (sent w ++ [register_request])%list /\
      forall tok uid, ~ registration_accepted (answer register_request w) tok uid
  end.
Proof.
  unfold test_registration, answer, register_request. plumb.
  repeat branch; facts; simpl; repeat split;
    try (intros tok uid (r0 & d0 & u0 & [= <-] & ? & ? & ? & ? & ? & ? & ?); congruence).
  do 3 eexists; repeat split; eassumption.
Qed.
Lemma call_ok {A} (m : M A) (w w' : world) (a : A) :
  m w = (Ok a, w') -> call m w = (Ok tt, w').
Proof. intros H. unfold call, bind. now rewrite H. Qed.

Lemma call_raise {A} (m : M A) (w w' : world) (e : exn) :
  m w = (Raise e, w') -> call m w = (Raise e, w').
Proof. intros H. unfold call, bind. now rewrite H. Qed.

Lemma call_inv {A} (m : M A) (w w' : world) :
  call m w = (Ok tt, w') -> exists a, m w = (Ok a, w').
Proof.
  unfold call, bind, ret. destruct (m w) as [[a|e] w1]; intros [= <-].
  now exists a.
Qed.

Lemma firstn_snoc {A} (l : list A) (k : nat) (x : A) :
  nth_error l k = Some x -> firstn (S k) l = (firstn k l ++ [x])%list.
Proof.
  revert k; induction l as [|y l IH]; intros [|k]; simpl; try discriminate.
  - now intros [= ->].
  - intros H. f_equal. now apply IH.
Qed.

Lemma reaches_zero (b : backend) : reaches b 0 (started b).
Proof. reflexivity. Qed.

Lemma reaches_step (b : backend) (k : nat) (s : M unit) (w w' : world) :
  nth_error test_steps k = Some s ->
  reaches b k w -> s w = (Ok tt, w') -> reaches b (S k) w'.
Proof.
  unfold reaches. intros Hk Hr Hs.
  rewrite (firstn_snoc _ _ _ Hk), run_all_app, Hr. simpl.
  unfold bind, ret. now rewrite Hs.
Qed.

Lemma reaches_inv (b : backend) (k : nat) (s : M unit) (w' : world) :
  nth_error test_steps k = Some s ->
  reaches b (S k) w' -> exists w, reaches b k w /\ s w = (Ok tt, w').
Proof.
  unfold reaches. intros Hk. rewrite (firstn_snoc _ _ _ Hk), run_all_app.
  destruct (run_all (firstn k test_steps) (started b)) as [[[]|e] w] eqn:Hr;
    [|discriminate].
  simpl. unfold bind, ret. destruct (s w) as [[[]|e] w1] eqn:Hs; intros [= <-].
  now exists w.
Qed.

Lemma handler_sent (e : exn) (w : world) : sent (snd (handler e w)) = sent w.
Proof. destruct (handler_returns e w) as [w' [-> [H _]]]. exact H. Qed.

Lemma test_login_before_verification_cases (w : world) :
  match test_login_before_verification w with
  | (Ok flag, w') =>
      flag = true /\
      sent w' = (sent w ++ [login_request])%list /\
      same_globals w w' /\
      refused_with 401 "Please verify your email" (answer login_request w)
  | (Raise e, w') =>
      sent w' = (sent w ++ [login_request])%list
  end.
Proof.
  unfold test_login_before_verification, answer, login_request, same_globals. plumb.
  repeat branch; facts; simpl; repeat split.
  do 3 eexists. repeat split; try eassumption. apply py_in_carries. congruence.
Qed.

Lemma test_email_verification_confirm_cases (w : world) :
  match test_email_verification_confirm w with
  | (Ok flag, w') =>
      flag = true /\
      sent w' = (sent w ++ [confirm_request dummy_token])%list /\
      same_globals w w' /\
      refused_with 400 "Invalid or expired" (answer (confirm_request dummy_token) w)
  | (Raise e, w') =>
      sent w' = (sent w ++ [confirm_request dummy_token])%list
  end.
Proof.
  unfold test_email_verification_confirm, answer, confirm_request, same_globals. plumb.
  repeat branch; facts; simpl; repeat split.
  do 3 eexists. repeat split; try eassumption. apply py_in_carries. congruence.
Qed.

Lemma test_validation_errors_cases (w : world) :
  match test_validation_errors w with
  | (Ok _, w') =>
      sent w' = (sent w ++ [bad_email_request; short_password_request])%list /\
      validation_answered w
  | (Raise e, w') => ~ validation_answered w
  end.
Proof.
  unfold test_validation_errors, validation_answered,
    bad_email_request, short_password_request. plumb.
  repeat branch; facts; simpl; repeat split;
    try (intros (? & ? & ? & ? & ? & ? & ? & ?); congruence).
  - now rewrite <- app_assoc.
  - do 4 eexists. repeat split; try eassumption; reflexivity.
Qed.

Lemma test_error_cases_cases (w : world) :
  match test_error_cases w with
  | (Ok _, w') =>
      sent w' = (sent w ++ [invalid_login_request; register_request;
                            invalid_token_request; missing_post_request])%list /\
      error_cases_answered w
  | (Raise e, w') => ~ error_cases_answered w
  end.
Proof.
  unfold test_error_cases, error_cases_answered, invalid_login_request,
    register_request, invalid_token_request, missing_post_request. plumb.
  repeat branch; facts; simpl; repeat split;
    try (intros (? & ? & ? & ? & ? & ? & ? & ? & ? & ? & ? & ? & ? & ? & ? & ?);
         congruence).
  - now rewrite <- !app_assoc.
  - do 8 eexists. repeat split; try eassumption; reflexivity.
Qed.
Lemma test_create_post_cases (w : world) :
  match test_create_post w with
  | (Ok flag, w') =>
      flag = true /\
      sent w' = (sent w ++ [create_post_request (auth_token w)])%list /\
      auth_token w' = auth_token w /\ user_id w' = user_id w /\
      creation_accepted (answer (create_post_request (auth_token w)) w) (post_id w')
  | (Raise e, w') => True
  end.
Proof.
  unfold test_create_post, answer, create_post_request, creation_accepted. plumb.
  repeat branch; facts; simpl; repeat split.
  do 3 eexists. repeat split; try eassumption; try reflexivity; congruence.
Qed.

Lemma test_get_single_post_cases (w : world) :
  match test_get_single_post w with
  | (Ok flag, w') =>
      flag = true /\
      sent w' = (sent w ++ [get_post_request (post_id w)])%list /\
      same_globals w w' /\
      post_id w <> JNull /\
      fetch_accepted (answer (get_post_request (post_id w)) w) (post_id w)
  | (Raise e, w') =>
      post_id w = JNull \/
      ~ fetch_accepted (answer (get_post_request (post_id w)) w) (post_id w)
  end.
Proof.
  unfold test_get_single_post, answer, get_post_request, fetch_accepted, same_globals.
  plumb.
  repeat branch; facts; simpl; repeat split; try assumption;
    try (now left);
    try (right; intros (? & ? & ? & ? & ? & ? & ? & ? & ? & ?); congruence).
  do 3 eexists. repeat split; try eassumption; try reflexivity; congruence.
Qed.

Lemma test_update_post_cases (w : world) :
  match test_update_post w with
  | (Ok flag, w') =>
      flag = true /\
      sent w' = (sent w ++ [update_post_request (auth_token w) (post_id w)])%list /\
      same_globals w w' /\
      update_accepted
        (answer (update_post_request (auth_token w) (post_id w)) w) (post_id w)
  | (Raise e, w') => True
  end.
Proof.
  unfold test_update_post, answer, update_post_request, update_accepted, same_globals.
  plumb.
  repeat branch; facts; simpl; repeat split.
  do 4 eexists. repeat split; try eassumption; try reflexivity; congruence.
Qed.

Lemma test_get_all_posts_cases (w : world) :
  match test_get_all_posts w with
  | (Ok flag, w') =>
      sent w' = (sent w ++ [list_posts_request])%list /\ same_globals w w'
  | (Raise e, w') => True
  end.
Proof.
  unfold test_get_all_posts, list_posts_request, same_globals. plumb.
  repeat branch; facts; simpl; repeat split.
Qed.

Lemma test_login_refused (w : world) (r : response) (b' : backend) :
  serve login_request (server w) = (Responded r, b') ->
  status_code r <> 200 ->
  exists w',
    test_login w = (Ok false, w') /\
    same_globals w w' /\
    server w' = b' /\
    sent w' = (sent w ++ [login_request])%list.
Proof.
  intros Hs Hst. unfold test_login, login_request in *. plumb. rewrite Hs.
  apply Z.eqb_neq in Hst. rewrite Hst. plumb.
  eexists. repeat split.
Qed.
Ltac unfold_steps :=
  unfold test_registration, test_login_before_verification,
    test_email_verification_request, test_email_verification_confirm,
    test_login, test_profile, test_create_post, test_get_all_posts,
    test_get_single_post, test_update_post, test_create_comment,
    test_get_comments, test_like_post, test_unlike_post, test_error_cases,
    test_validation_errors.

Ltac wire_log :=
  eexists; split;
  [ rewrite <- ?app_assoc; first [reflexivity | symmetry; apply app_nil_r]
  | repeat first [apply Forall_nil | apply Forall_cons] ].

Lemma steps_confirm_with_dummy (s : M unit) (w : world) :
  In s test_steps ->
  extends_with confirms_with_dummy w (snd (s w)).
Proof.
  unfold test_steps. intros Hin. simpl in Hin.
  repeat (destruct Hin as [<-|Hin]); [..|contradiction];
    unfold_steps; plumb; repeat branch; simpl;
    wire_log; intros rest [=]; congruence.
Qed.

Lemma later_steps_keep_token (s : M unit) (w : world) :
  In s (skipn 5 test_steps) ->
  auth_token (snd (s w)) = auth_token w /\
  extends_with (authorised_by (auth_token w)) w (snd (s w)).
Proof.
  unfold test_steps. intros Hin. simpl in Hin.
  repeat (destruct Hin as [<-|Hin]); [..|contradiction];
    unfold_steps; plumb; repeat branch; simpl;
    (split; [reflexivity|]); wire_log;
    unfold authorised_by, bearer; simpl; auto.
Qed.

Lemma extends_with_refl (P : request -> Prop) (w : world) : extends_with P w w.
Proof. exists []. split; [symmetry; apply app_nil_r | constructor]. Qed.

Lemma extends_with_trans (P : request -> Prop) (a b c : world) :
  extends_with P a b -> extends_with P b c -> extends_with P a c.
Proof.
  intros [n1 [H1 F1]] [n2 [H2 F2]]. exists (n1 ++ n2)%list. split.
  - now rewrite H2, H1, app_assoc.
  - apply Forall_app. now split.
Qed.

(** A relation between worlds that every call of a list maintains is
    maintained by running the list, wherever the run stops. *)
Lemma run_all_invariant (R : world -> world -> Prop) (l : list (M unit)) :
  (forall w, R w w) ->
  (forall a b c, R a b -> R b c -> R a c) ->
  (forall s w, In s l -> R w (snd (s w))) ->
  forall w, R w (snd (run_all l w)).
Proof.
  intros Hrefl Htrans. induction l as [|s l IH]; intros Hstep w; simpl.
  - apply Hrefl.
  - unfold bind. pose proof (Hstep s w (or_introl eq_refl)) as Hs.
    destruct (s w) as [[[]|e] w1]; simpl in *; [|exact Hs].
    apply (Htrans _ w1); [exact Hs|].
    apply IH. intros s' w' Hin. apply Hstep. now right.
Qed.

(** Printing changes nothing but the output. *)
Lemma emit_frame (ev : event) (w : world) :
  exists w', emit ev w = (Ok tt, w') /\
             sent w' = sent w /\ server w' = server w /\ same_globals w w'.
Proof. unfold emit, same_globals. eexists. repeat split. Qed.

Lemma then_frame (m k : M unit) :
  (forall w, exists w', m w = (Ok tt, w') /\
             sent w' = sent w /\ server w' = server w /\ same_globals w w') ->
  (forall w, exists w', k w = (Ok tt, w') /\
             sent w' = sent w /\ server w' = server w /\ same_globals w w') ->
  forall w, exists w', (m ;; k) w = (Ok tt, w') /\
             sent w' = sent w /\ server w' = server w /\ same_globals w w'.
Proof.
  intros Hm Hk w. unfold bind.
  destruct (Hm w) as [w1 [-> [Hs1 [Hb1 Hg1]]]].
  destruct (Hk w1) as [w2 [-> [Hs2 [Hb2 Hg2]]]].
  exists w2. unfold same_globals in *. repeat split; intuition congruence.
Qed.

Lemma print_summary_frame (w : world) :
  exists w', print_summary w = (Ok tt, w') /\
             sent w' = sent w /\ server w' = server w /\ same_globals w w'.
Proof.
  revert w. unfold print_summary, print.
  repeat (apply then_frame; [intros w; apply emit_frame|]).
  intros w; apply emit_frame.
Qed.

Lemma cleanup_test_data_frame (w : world) :
  exists w', cleanup_test_data w = (Ok tt, w') /\
             sent w' = sent w /\ server w' = server w /\ same_globals w w'.
Proof.
  revert w. unfold cleanup_test_data, print.
  apply then_frame; intros w; apply emit_frame.
Qed.

(** Whatever happens to the calls [steps], closing the [try] block after
    them and handling what was raised sends nothing more. *)
Lemma closing_sends_nothing (steps : list (M unit)) (w : world) :
  exists wf,
    try_except (run_all steps ;; print_summary ;; cleanup_test_data) handler w
      = (Ok tt, wf) /\
    sent wf = sent (snd (run_all steps w)) /\
    auth_token wf = auth_token (snd (run_all steps w)) /\
    verification_token wf = verification_token (snd (run_all steps w)).
Proof.
  unfold try_except, bind.
  destruct (run_all steps w) as [[[]|e] w1]; cbv beta iota; cbn [snd].
  - destruct (print_summary_frame w1) as [w2 [-> [Hs2 [_ Hg2]]]].
    destruct (cleanup_test_data_frame w2) as [w3 [-> [Hs3 [_ Hg3]]]].
    exists w3. unfold same_globals in *. repeat split; intuition congruence.
  - destruct (handler_returns e w1) as [wf [-> [Hs [_ Hg]]]].
    exists wf. unfold same_globals in *. repeat split; intuition congruence.
Qed.

Lemma main_resumes (b : backend) (k : nat) (w : world) :
  reaches b k w ->
  main (initial b) =
  try_except (run_all (skipn k test_steps) ;; print_summary ;; cleanup_test_data)
             handler w.
Proof.
  unfold reaches, started. intros Hr.
  unfold main, try_block, try_except. unfold bind at 1.
  destruct (banner (initial b)) as [[[]|e0] w1] eqn:Hb;
    [|unfold banner in Hb; plumb; discriminate].
  simpl in Hr. unfold bind at 1 3.
  rewrite <- (firstn_skipn k test_steps) at 1.
  rewrite run_all_app, Hr. reflexivity.
Qed.

Lemma early_steps_keep_globals (s : M unit) (w : world) :
  In s [call test_login_before_verification;
        call test_email_verification_request;
        call test_email_verification_confirm] ->
  same_globals w (snd (s w)).
Proof.
  intros Hin. simpl in Hin.
  repeat (destruct Hin as [<-|Hin]); [..|contradiction];
    unfold_steps; unfold same_globals; plumb; repeat branch; simpl; repeat split.
Qed.

Lemma test_profile_sends (w : world) :
  auth_token w <> JNull ->
  sent (snd (test_profile w)) = (sent w ++ [profile_request (auth_token w)])%list.
Proof.
  intros Htok. apply is_none_false in Htok.
  unfold test_profile, profile_request. plumb. rewrite Htok. plumb.
  repeat branch; reflexivity.
Qed.

(** C10.  The cleanup step sends nothing and changes nothing but the
    output: the wire log, the backend and its data, and the globals
    (token, user id, post id, comment id, verification token) are what
    they were, and two lines have been printed. *)
Theorem cleanup_test_data_only_prints (w : world) :
  exists w',
    cleanup_test_data w = (Ok tt, w') /\
    sent w' = sent w /\ server w' = server w /\
    auth_token w' = auth_token w /\ user_id w' = user_id w /\
    post_id w' = post_id w /\ comment_id w' = comment_id w /\
    verification_token w' = verification_token w /\
    printed w' =
      (printed w ++
       [Print [Lit (String "010" "🧹 Cleaning up test data...")];
        Print [Lit "✅ Test data cleanup completed"]])%list.
Proof.
  unfold cleanup_test_data, print, emit, bind. eexists. repeat split.
  cbn [printed]. now rewrite <- app_assoc.
Qed.

(** C4.  Against any backend, the registration step either returns, and
    then the answer had status 201 and held a token and a user id,
    neither of them null, which are now the globals [auth_token] and
    [user_id]; or it raises, the answer was not such, and the run ends in
    the handler having sent the registration request and nothing else. *)
Theorem registration_gate (b : backend) :
  (exists w',
      test_registration (started b) = (Ok true, w') /\
      registration_accepted (answer register_request (started b))
                            (auth_token w') (user_id w') /\
      reaches b 1 w')
  \/
  (exists e w',
      test_registration (started b) = (Raise e, w') /\
      (forall tok uid,
          ~ registration_accepted (answer register_request (started b)) tok uid) /\
      main (initial b) = handler e w' /\
      sent (snd (main (initial b))) = [register_request]).
Proof.
  pose proof (test_registration_cases (started b)) as H.
  destruct (test_registration (started b)) as [[flag|e] w'] eqn:Hrun.
  - destruct H as [-> [_ Hacc]]. left. exists w'. repeat split; [exact Hacc|].
    apply (reaches_step b 0 (call test_registration) (started b));
      [reflexivity | apply reaches_zero | now apply (call_ok _ _ _ true)].
  - destruct H as [Hsent Hno]. right. exists e, w'.
    assert (Hm : main (initial b) = handler e w').
    { apply (main_stops b 0 (call test_registration) (started b));
        [reflexivity | apply reaches_zero | now apply call_raise]. }
    repeat split; [exact Hno | exact Hm |].
    rewrite Hm, handler_sent, Hsent. reflexivity.
Qed.

(** A call of the [try] block either returns, and the run goes on to the
    next call, or raises, and the run ends in the handler. *)
Lemma step_or_stop {A} (b : backend) (k : nat) (m : M A) (w : world) :
  nth_error test_steps k = Some (call m) ->
  reaches b k w ->
  match m w with
  | (Ok _, w') => reaches b (S k) w'
  | (Raise e, w') =>
      main (initial b) = handler e w' /\ sent (snd (main (initial b))) = sent w'
  end.
Proof.
  intros Hk Hr. destruct (m w) as [[a|e] w'] eqn:Hm.
  - apply (reaches_step b k (call m) w); [exact Hk | exact Hr | now apply (call_ok _ _ _ a)].
  - assert (H : main (initial b) = handler e w').
    { apply (main_stops b k (call m) w); [exact Hk | exact Hr | now apply call_raise]. }
    split; [exact H | now rewrite H, handler_sent].
Qed.

(** C6.  In a run that got past registration, the login attempted before
    verification either returns, and then it was answered with status 401
    and a detail carrying a message that contains "verify your email"
    (the script looks for "Please verify your email"); or it raises and
    the run ends in the handler, nothing being sent after that login. *)
Theorem login_before_verification_gate (b : backend) (w : world) :
  reaches b 1 w ->
  (exists w',
      test_login_before_verification w = (Ok true, w') /\
      refused_with 401 "verify your email" (answer login_request w) /\
      reaches b 2 w')
  \/
  (exists e w',
      test_login_before_verification w = (Raise e, w') /\
      main (initial b) = handler e w' /\
      sent (snd (main (initial b))) = (sent w ++ [login_request])%list).
Proof.
  intros Hr.
  pose proof (test_login_before_verification_cases w) as H.
  pose proof (step_or_stop b 1 test_login_before_verification w eq_refl Hr) as Hgo.
  destruct (test_login_before_verification w) as [[flag|e] w'].
  - destruct H as [-> [_ [_ (r & data & detail & Ho & Hst & Hb & Hd & Hc)]]].
    left. exists w'. repeat split; [|exact Hgo].
    exists r, data, detail. repeat split; try assumption.
    now apply (carries_weaken _ "Please verify your email").
  - right. exists e, w'. destruct Hgo as [Hm Hs]. repeat split; [exact Hm|].
    now rewrite Hs.
Qed.

(** C7.  In a run that got as far as the confirmation, the step either
    returns, and then the dummy token was answered with status 400 and a
    detail carrying "Invalid or expired"; or it raises and the run ends in
    the handler.  Whatever the run, every request it sends to the
    confirmation endpoint carries the dummy token: a confirmation that
    succeeds is never asked for, and one answered with 200 ends the run. *)
Theorem verification_confirm_gate (b : backend) (w : world) :
  reaches b 3 w ->
  ((exists w',
       test_email_verification_confirm w = (Ok true, w') /\
       refused_with 400 "Invalid or expired"
                    (answer (confirm_request dummy_token) w) /\
       reaches b 4 w')
   \/
   (exists e w',
       test_email_verification_confirm w = (Raise e, w') /\
       main (initial b) = handler e w' /\
       sent (snd (main (initial b))) =
         (sent w ++ [confirm_request dummy_token])%list))
  /\ Forall confirms_with_dummy (sent (snd (main (initial b)))).
Proof.
  intros Hr. split.
  - pose proof (test_email_verification_confirm_cases w) as H.
    pose proof (step_or_stop b 3 test_email_verification_confirm w eq_refl Hr) as Hgo.
    destruct (test_email_verification_confirm w) as [[flag|e] w'].
    + destruct H as [-> [_ [_ Href]]]. left. exists w'. now repeat split.
    + right. exists e, w'. destruct Hgo as [Hm Hs]. repeat split; [exact Hm|].
      now rewrite Hs.
  - rewrite (main_resumes b 0 (started b) (reaches_zero b)).
    destruct (closing_sends_nothing (skipn 0 test_steps) (started b))
      as [wf [-> [Hs _]]].
    cbn [snd skipn] in *. rewrite Hs.
    destruct (run_all_invariant (extends_with confirms_with_dummy) test_steps
                (extends_with_refl _) (extends_with_trans _)
                (fun s w0 Hin => steps_confirm_with_dummy s w0 Hin) (started b))
      as [new [Hnew Hall]].
    rewrite Hnew. exact Hall.
Qed.

(** C5.  In a run that got as far as the validation step, the step either
    returns, and then the registration with the malformed email was
    answered with status 422 and the one with the short password with
    status 400, two different codes; or it raises, the answers were not
    these, and the run ends in the handler. *)
Theorem validation_errors_gate (b : backend) (w : world) :
  reaches b 15 w ->
  (exists w' r1 b1 r2 b2,
      test_validation_errors w = (Ok tt, w') /\
      serve bad_email_request (server w) = (Responded r1, b1) /\
      status_code r1 = 422 /\
      serve short_password_request b1 = (Responded r2, b2) /\
      status_code r2 = 400 /\
      status_code r1 <> status_code r2 /\
      reaches b 16 w')
  \/
  (exists e w',
      test_validation_errors w = (Raise e, w') /\
      ~ validation_answered w /\
      main (initial b) = handler e w').
Proof.
  intros Hr.
  pose proof (test_validation_errors_cases w) as H.
  pose proof (step_or_stop b 15 test_validation_errors w eq_refl Hr) as Hgo.
  destruct (test_validation_errors w) as [[[]|e] w'].
  - destruct H as [_ (r1 & b1 & r2 & b2 & H1 & S1 & H2 & S2)].
    left. exists w', r1, b1, r2, b2. repeat split; try assumption. lia.
  - right. exists e, w'. destruct Hgo as [Hm _]. now repeat split.
Qed.

Lemma firstn_plus {A} (n m : nat) (l : list A) :
  firstn (n + m) l = (firstn n l ++ firstn m (skipn n l))%list.
Proof.
  revert l; induction n as [|n IH]; intros [|x l]; simpl;
    try reflexivity; [now rewrite firstn_nil | now rewrite IH].
Qed.

Lemma In_firstn {A} (n : nat) (l : list A) (x : A) :
  In x (firstn n l) -> In x l.
Proof.
  revert l; induction n as [|n IH]; intros [|y l]; simpl; try tauto.
  intros [->|H]; [now left | right; now apply IH].
Qed.

(** Once the registration has returned, its request heads the wire log. *)
Lemma registration_sent_first (b : backend) (k : nat) (w : world) :
  (1 <= k)%nat -> reaches b k w -> exists rest, sent w = register_request :: rest.
Proof.
  intros Hk Hr. unfold reaches in Hr.
  replace k with (1 + (k - 1))%nat in Hr by lia.
  rewrite firstn_plus, run_all_app in Hr.
  destruct (run_all (firstn 1 test_steps) (started b)) as [[[]|e] w1] eqn:H1;
    [|discriminate].
  assert (Hfirst : sent w1 = [register_request]).
  { destruct (reaches_inv b 0 _ w1 eq_refl H1) as [w0 [H0 S0]].
    unfold reaches in H0. simpl in H0. injection H0 as <-.
    apply call_inv in S0 as [flag S0].
    pose proof (test_registration_cases (started b)) as Hreg.
    rewrite S0 in Hreg. now destruct Hreg as [_ [-> _]]. }
  destruct (run_all_invariant (extends_with confirms_with_dummy)
              (firstn (k - 1) (skipn 1 test_steps))
              (extends_with_refl _) (extends_with_trans _)
              (fun s w0 Hin => steps_confirm_with_dummy s w0
                                 (or_intror (In_firstn _ _ _ Hin)))
              w1) as [new [Hnew _]].
  rewrite Hr in Hnew. cbn [snd] in Hnew.
  exists new. now rewrite Hnew, Hfirst.
Qed.

(** C2.  When a call of the [try] block raises, the run ends there: no
    request is sent after it and the backend is left as it was.  An
    assertion failure is reported with its message and a stack trace; a
    connection failure with three lines of its own, which are not those
    of an assertion failure, and no stack trace; any other exception with
    its text and a stack trace. *)
Theorem failures_end_the_run (b : backend) (k : nat) (s : M unit)
        (w w' : world) (e : exn) :
  nth_error test_steps k = Some s ->
  reaches b k w ->
  s w = (Raise e, w') ->
  exists wf,
    main (initial b) = (Ok tt, wf) /\
    sent wf = sent w' /\ server wf = server w' /\
    (forall m, e = AssertionError m ->
               printed wf = (printed w' ++ assertion_report e)%list) /\
    (e = ConnectionError ->
     printed wf = (printed w' ++ connection_report)%list) /\
    (is_assertion e = false -> is_connection e = false ->
     printed wf = (printed w' ++ error_report e)%list) /\
    (forall m, connection_report <> assertion_report (AssertionError m)).
Proof.
  intros Hk Hr Hs. rewrite (main_stops b k s w w' e Hk Hr Hs).
  destruct e; unfold handler, connection_report, assertion_report, error_report,
    print, emit, bind; cbn [is_connection is_assertion printed sent server];
    eexists; (split; [reflexivity|]); cbn [printed sent server];
    rewrite <- ?app_assoc; repeat split; intros; try discriminate; reflexivity.
Qed.
(** The token and the user id a run holds until [test_login] are those
    of the answer to the registration. *)
Lemma token_from_registration (b : backend) (w : world) :
  reaches b 4 w ->
  registration_accepted (answer register_request (started b))
                        (auth_token w) (user_id w).
Proof.
  intros H4.
  destruct (reaches_inv b 3 _ w eq_refl H4) as [w3 [H3 S3]].
  destruct (reaches_inv b 2 _ w3 eq_refl H3) as [w2 [H2 S2]].
  destruct (reaches_inv b 1 _ w2 eq_refl H2) as [w1 [H1 S1]].
  destruct (reaches_inv b 0 _ w1 eq_refl H1) as [w0 [H0 S0]].
  unfold reaches in H0. simpl in H0. injection H0 as <-.
  apply call_inv in S0 as [flag S0].
  pose proof (test_registration_cases (started b)) as Hreg.
  rewrite S0 in Hreg. destruct Hreg as [_ [_ Hacc]].
  pose proof (early_steps_keep_globals _ w1 (or_introl eq_refl)) as G1.
  pose proof (early_steps_keep_globals _ w2 (or_intror (or_introl eq_refl))) as G2.
  pose proof (early_steps_keep_globals _ w3
                (or_intror (or_intror (or_introl eq_refl)))) as G3.
  rewrite S1 in G1. rewrite S2 in G2. rewrite S3 in G3.
  unfold same_globals in *. cbn [snd] in *.
  destruct G1 as [A1 [U1 _]], G2 as [A2 [U2 _]], G3 as [A3 [U3 _]].
  rewrite A3, A2, A1, U3, U2, U1. exact Hacc.
Qed.

Lemma keeps_token_refl (w : world) : keeps_token w w.
Proof. split; [reflexivity | apply extends_with_refl]. Qed.

Lemma keeps_token_trans (a b c : world) :
  keeps_token a b -> keeps_token b c -> keeps_token a c.
Proof.
  intros [T1 E1] [T2 E2]. split; [congruence|].
  rewrite T1 in E2. now apply (extends_with_trans _ a b c).
Qed.

Lemma later_steps_run (l : list (M unit)) (w : world) :
  (forall s, In s l -> In s (skipn 5 test_steps)) ->
  keeps_token w (snd (run_all l w)).
Proof.
  intros Hl. apply (run_all_invariant keeps_token l keeps_token_refl keeps_token_trans).
  intros s w0 Hin. apply later_steps_keep_token. now apply Hl.
Qed.

(** The checks of the fetched post pass whatever text it carries. *)
Lemma fetch_passes (w : world) :
  post_id w <> JNull ->
  fetch_accepted (answer (get_post_request (post_id w)) w) (post_id w) ->
  exists w', test_get_single_post w = (Ok true, w').
Proof.
  intros Hn Hf. pose proof (test_get_single_post_cases w) as H.
  destruct (test_get_single_post w) as [[flag|e] w'].
  - destruct H as [-> _]. now exists w'.
  - destruct H as [H|H]; contradiction.
Qed.

(** C1, as the script has it.  In a run in which the post was created,
    listed, fetched and updated: the answer to the creation had status
    201, an id that is not null (now [post_id]), a text equal to the one
    sent and a [created_at] field; the answer to the fetch by that id had
    status 200, the same id, and a [text] and a [created_at] field, and
    any such answer passes, whatever its text; the answer to the update
    had status 200, a text equal to the updated text and the same id; and
    the four steps sent these four requests and no other, so the post is
    not fetched again after the update. *)
Theorem post_checks (b : backend) (w10 : world) :
  reaches b 10 w10 ->
  exists w6 w7 w8 w9,
    reaches b 6 w6 /\ reaches b 7 w7 /\ reaches b 8 w8 /\ reaches b 9 w9 /\
    post_id w7 <> JNull /\
    post_id w10 = post_id w7 /\
    creation_accepted (answer (create_post_request (auth_token w6)) w6)
                      (post_id w7) /\
    fetch_accepted (answer (get_post_request (post_id w7)) w8) (post_id w7) /\
    update_accepted
      (answer (update_post_request (auth_token w6) (post_id w7)) w9)
      (post_id w7) /\
    sent w10 =
      (sent w6 ++ [create_post_request (auth_token w6);
                   list_posts_request;
                   get_post_request (post_id w7);
                   update_post_request (auth_token w6) (post_id w7)])%list /\
    (forall w, post_id w <> JNull ->
               fetch_accepted (answer (get_post_request (post_id w)) w)
                              (post_id w) ->
               exists w', test_get_single_post w = (Ok true, w')).
Proof.
  intros H10.
  destruct (reaches_inv b 9 _ w10 eq_refl H10) as [w9 [H9 S9]].
  destruct (reaches_inv b 8 _ w9 eq_refl H9) as [w8 [H8 S8]].
  destruct (reaches_inv b 7 _ w8 eq_refl H8) as [w7 [H7 S7]].
  destruct (reaches_inv b 6 _ w7 eq_refl H7) as [w6 [H6 S6]].
  apply call_inv in S9 as [f9 S9]. apply call_inv in S8 as [f8 S8].
  apply call_inv in S7 as [f7 S7]. apply call_inv in S6 as [f6 S6].
  pose proof (test_update_post_cases w9) as C9. rewrite S9 in C9.
  pose proof (test_get_single_post_cases w8) as C8. rewrite S8 in C8.
  pose proof (test_get_all_posts_cases w7) as C7. rewrite S7 in C7.
  pose proof (test_create_post_cases w6) as C6. rewrite S6 in C6.
  destruct C9 as [_ [Hs9 [[A9 [_ [P9 _]]] U9]]].
  destruct C8 as [_ [Hs8 [[A8 [_ [P8 _]]] [N8 F8]]]].
  destruct C7 as [Hs7 [A7 [_ [P7 _]]]].
  destruct C6 as [_ [Hs6 [A6 [_ Cr]]]].
  exists w6, w7, w8, w9.
  assert (E8 : post_id w8 = post_id w7) by exact P7.
  assert (E9 : post_id w9 = post_id w7) by congruence.
  assert (T9 : auth_token w9 = auth_token w6) by congruence.
  rewrite E8 in *. rewrite E9, T9 in *.
  repeat match goal with |- _ /\ _ => split end;
    try assumption; try congruence.
  - rewrite Hs9, Hs8, Hs7, Hs6, <- !app_assoc. reflexivity.
  - apply fetch_passes.
Qed.

(** *** The remaining steps *)

(** Closing a case that the decided tests contradict. *)
Ltac refute :=
  intros;
  try match goal with |- ~ _ => intro end;
  repeat match goal with
    | H : ex _ |- _ => destruct H
    | H : _ /\ _ |- _ => destruct H
    end;
  first [ discriminate | congruence
        | match goal with
          | H : is_list ?j = false |- _ => destruct j; simpl in *; congruence
          end ].

(** A value that passed [isinstance(_, list)] is a list. *)
Ltac lists :=
  repeat match goal with
    | H : is_list ?j = true |- _ =>
        destruct j; try discriminate H; clear H; simpl in *; try discriminate
    end.

Lemma test_email_verification_request_cases (w : world) :
  match test_email_verification_request w with
  | (Ok flag, w') =>
      flag = true /\
      sent w' = (sent w ++ [verification_request])%list /\
      same_globals w w' /\
      acknowledged (answer verification_request w)
  | (Raise e, w') =>
      sent w' = (sent w ++ [verification_request])%list /\
      same_globals w w' /\
      ~ acknowledged (answer verification_request w)
  end.
Proof.
  unfold test_email_verification_request, answer, verification_request,
    acknowledged, same_globals, test_user, test_user_of.
  plumb.
  repeat branch; facts; simpl; repeat split;
    try (intros (? & ? & ? & ? & ? & ?); congruence).
  do 2 eexists. repeat split; try eassumption; try reflexivity; congruence.
Qed.

Lemma test_login_cases (w : world) :
  match test_login w with
  | (Ok true, w') =>
      sent w' = (sent w ++ [login_request])%list /\
      post_id w' = post_id w /\
      login_granted (answer login_request w) (auth_token w') (user_id w')
  | (Ok false, w') =>
      sent w' = (sent w ++ [login_request])%list /\
      same_globals w w' /\
      (exists r, answer login_request w = Responded r /\ status_code r <> 200)
  | (Raise e, w') =>
      sent w' = (sent w ++ [login_request])%list /\
      post_id w' = post_id w /\
      (forall tok uid, ~ login_granted (answer login_request w) tok uid) /\
      ~ (exists r, answer login_request w = Responded r /\ status_code r <> 200)
  end.
Proof.
  unfold test_login, answer, login_request, login_granted, same_globals.
  plumb.
  repeat branch; facts; simpl; repeat split;
    try (intros ? ? (? & ? & ? & [= <-] & ? & ? & ? & ? & ? & ? & ?); congruence);
    try (intros (? & [= <-] & ?); congruence);
    try (intros (? & [=] & ?)).
  - do 3 eexists. repeat split; try eassumption; try reflexivity; congruence.
  - eexists. split; [reflexivity | assumption].
Qed.

Lemma test_profile_cases (w : world) :
  match test_profile w with
  | (Ok true, w') =>
      auth_token w <> JNull /\
      sent w' = (sent w ++ [profile_request (auth_token w)])%list /\
      same_globals w w' /\
      profile_shown (answer (profile_request (auth_token w)) w)
  | (Ok false, w') =>
      auth_token w <> JNull /\
      sent w' = (sent w ++ [profile_request (auth_token w)])%list /\
      same_globals w w' /\
      (exists r, answer (profile_request (auth_token w)) w = Responded r /\
                 status_code r <> 200)
  | (Raise e, w') =>
      same_globals w w' /\
      ((auth_token w = JNull /\ sent w' = sent w /\ server w' = server w /\
        e = AssertionError [Lit "No auth token available"])
       \/
       (auth_token w <> JNull /\
        sent w' = (sent w ++ [profile_request (auth_token w)])%list /\
        ~ profile_shown (answer (profile_request (auth_token w)) w) /\
        ~ (exists r, answer (profile_request (auth_token w)) w = Responded r /\
                     status_code r <> 200)))
  end.
Proof.
  unfold test_profile, answer, profile_request, profile_shown, same_globals,
    test_user, test_user_of.
  plumb.
  repeat branch; facts; simpl in *; repeat split; try assumption;
    try (left; repeat split; assumption);
    try (right; repeat split; try assumption;
         [ intros (? & ? & ? & ? & [= <-] & ? & ? & ? & ? & ? & ?); congruence
         | first [ intros (? & [= <-] & ?); congruence | intros (? & [=] & ?) ] ]).
  - do 4 eexists. repeat split; try eassumption; try reflexivity; congruence.
  - eexists. split; [reflexivity | assumption].
Qed.

Lemma test_get_comments_cases (w : world) :
  match test_get_comments w with
  | (Ok flag, w') =>
      flag = true /\ post_id w <> JNull /\
      sent w' = (sent w ++ [comments_request (post_id w)])%list /\
      same_globals w w' /\
      listed (answer (comments_request (post_id w)) w)
  | (Raise e, w') =>
      same_globals w w' /\
      (post_id w = JNull \/ ~ listed (answer (comments_request (post_id w)) w))
  end.
Proof.
  unfold test_get_comments, answer, comments_request, listed, same_globals.
  plumb.
  repeat branch; facts; lists; simpl in *; repeat split; try assumption;
    try (now left); try solve [right; refute].
  do 2 eexists. repeat split; eassumption.
Qed.

Lemma test_get_all_posts_listed (w : world) :
  match test_get_all_posts w with
  | (Ok flag, w') => flag = true /\ listed (answer list_posts_request w)
  | (Raise e, w') =>
      sent w' = (sent w ++ [list_posts_request])%list /\
      same_globals w w' /\
      ~ listed (answer list_posts_request w)
  end.
Proof.
  unfold test_get_all_posts, answer, list_posts_request, listed, same_globals.
  plumb.
  repeat branch; facts; lists; simpl in *; repeat split; try assumption;
    try solve [refute].
  do 2 eexists. repeat split; eassumption.
Qed.

Lemma test_create_comment_cases (w : world) :
  match test_create_comment w with
  | (Ok flag, w') =>
      flag = true /\ auth_token w <> JNull /\ post_id w <> JNull /\
      sent w' = (sent w ++ [comment_request (auth_token w) (post_id w)])%list /\
      auth_token w' = auth_token w /\ user_id w' = user_id w /\
      post_id w' = post_id w /\
      comment_accepted
        (answer (comment_request (auth_token w) (post_id w)) w)
        (post_id w) (comment_id w')
  | (Raise e, w') =>
      auth_token w' = auth_token w /\ user_id w' = user_id w /\
      post_id w' = post_id w /\
      (auth_token w = JNull \/ post_id w = JNull \/
       forall cid,
         ~ comment_accepted
             (answer (comment_request (auth_token w) (post_id w)) w)
             (post_id w) cid)
  end.
Proof.
  unfold test_create_comment, answer, comment_request, comment_accepted.
  plumb.
  repeat branch; facts; simpl in *; repeat split; try assumption;
    try (now left); try (right; now left); try solve [right; right; refute].
  do 4 eexists. repeat split; try eassumption; try reflexivity; congruence.
Qed.

Lemma test_like_post_cases (w : world) :
  match test_like_post w with
  | (Ok flag, w') =>
      flag = true /\ auth_token w <> JNull /\ post_id w <> JNull /\
      sent w' = (sent w ++ [like_request (auth_token w) (post_id w)])%list /\
      same_globals w w' /\
      like_accepted (answer (like_request (auth_token w) (post_id w)) w)
                    (post_id w) (user_id w)
  | (Raise e, w') =>
      same_globals w w' /\
      (auth_token w = JNull \/ post_id w = JNull \/
       ~ like_accepted (answer (like_request (auth_token w) (post_id w)) w)
                       (post_id w) (user_id w))
  end.
Proof.
  unfold test_like_post, answer, like_request, like_accepted, same_globals.
  plumb.
  repeat branch; facts; simpl in *; repeat split; try assumption;
    try (now left); try (right; now left); try solve [right; right; refute].
  do 4 eexists. repeat split; try eassumption; try reflexivity; congruence.
Qed.

Lemma test_unlike_post_cases (w : world) :
  match test_unlike_post w with
  | (Ok flag, w') =>
      flag = true /\ auth_token w <> JNull /\ post_id w <> JNull /\
      sent w' = (sent w ++ [unlike_request (auth_token w) (post_id w)])%list /\
      same_globals w w' /\
      answered_with 204 (answer (unlike_request (auth_token w) (post_id w)) w)
  | (Raise e, w') =>
      same_globals w w' /\
      (auth_token w = JNull \/ post_id w = JNull \/
       ~ answered_with 204
           (answer (unlike_request (auth_token w) (post_id w)) w))
  end.
Proof.
  unfold test_unlike_post, answer, unlike_request, answered_with, same_globals.
  plumb.
  repeat branch; facts; simpl in *; repeat split; try assumption;
    try (now left); try (right; now left); try solve [right; right; refute].
  eexists. split; [reflexivity | assumption].
Qed.

(** Splitting a conjunction without unfolding what it is made of. *)
Ltac conjs := repeat match goal with |- _ /\ _ => split end.

(** X1.  The verification request step sends one request, the registered
    email as its only field, and leaves the globals alone; it returns
    exactly when the answer has status 200 and a body in which
    ["message" in data] holds, and raises otherwise. *)
Theorem verification_request_gate (w : world) :
  (exists w',
      test_email_verification_request w = (Ok true, w') /\
      acknowledged (answer verification_request w) /\
      sent w' = (sent w ++ [verification_request])%list /\
      same_globals w w')
  \/
  (exists e w',
      test_email_verification_request w = (Raise e, w') /\
      ~ acknowledged (answer verification_request w) /\
      sent w' = (sent w ++ [verification_request])%list /\
      same_globals w w').
Proof.
  pose proof (test_email_verification_request_cases w) as H.
  destruct (test_email_verification_request w) as [[flag|e] w'].
  - destruct H as [-> [Hs [Hg Ha]]]. left. exists w'. conjs; first [reflexivity | assumption].
  - destruct H as [Hs [Hg Ha]]. right. exists e, w'. conjs; first [reflexivity | assumption].
Qed.

(** X2.  [test_login] sends the login request and never touches the post
    id.  It returns [True] exactly when the answer has status 200 and
    holds a token and a user id, neither null, which replace the globals;
    it returns [False], globals untouched, exactly when the answer has
    another status; it raises in the remaining cases: no answer, or a
    status 200 whose body does not hold a token and a user id. *)
Theorem login_outcomes (w : world) :
  sent (snd (test_login w)) = (sent w ++ [login_request])%list /\
  post_id (snd (test_login w)) = post_id w /\
  ((exists w',
       test_login w = (Ok true, w') /\
       login_granted (answer login_request w) (auth_token w') (user_id w'))
   \/
   (exists w' r,
       test_login w = (Ok false, w') /\
       answer login_request w = Responded r /\ status_code r <> 200 /\
       same_globals w w')
   \/
   (exists e w',
       test_login w = (Raise e, w') /\
       (forall tok uid, ~ login_granted (answer login_request w) tok uid) /\
       ~ (exists r, answer login_request w = Responded r /\ status_code r <> 200))).
Proof.
  pose proof (test_login_cases w) as H.
  destruct (test_login w) as [[[|]|e] w']; cbn [snd].
  - destruct H as [Hs [Hp Hg]]. conjs; try assumption.
    left. exists w'. conjs; first [reflexivity | assumption].
  - destruct H as [Hs [Hg [r [Hr Hst]]]]. conjs; try assumption.
    + now destruct Hg as (_ & _ & Hp & _).
    + right. left. exists w', r. conjs; first [reflexivity | assumption].
  - destruct H as [Hs [Hp [Hno Hnr]]]. conjs; try assumption.
    right. right. exists e, w'. conjs; first [reflexivity | assumption].
Qed.

(** X3.  With a token, [test_profile] sends the profile request with that
    token as bearer and leaves the globals alone.  It returns [True] when
    the answer has status 200 and shows a user with the registered email,
    returns [False] without raising when the answer has another status,
    and raises in the remaining cases. *)
Theorem profile_outcomes (w : world) :
  auth_token w <> JNull ->
  sent (snd (test_profile w)) = (sent w ++ [profile_request (auth_token w)])%list /\
  same_globals w (snd (test_profile w)) /\
  ((exists w',
       test_profile w = (Ok true, w') /\
       profile_shown (answer (profile_request (auth_token w)) w))
   \/
   (exists w' r,
       test_profile w = (Ok false, w') /\
       answer (profile_request (auth_token w)) w = Responded r /\
       status_code r <> 200)
   \/
   (exists e w',
       test_profile w = (Raise e, w') /\
       ~ profile_shown (answer (profile_request (auth_token w)) w) /\
       ~ (exists r, answer (profile_request (auth_token w)) w = Responded r /\
                    status_code r <> 200))).
Proof.
  intros Htok. pose proof (test_profile_cases w) as H.
  destruct (test_profile w) as [[[|]|e] w']; cbn [snd].
  - destruct H as [_ [Hs [Hg Hp]]]. conjs; try assumption;
      try (now destruct Hg as (? & ? & ? & ? & ?)).
    left. exists w'. conjs; first [reflexivity | assumption].
  - destruct H as [_ [Hs [Hg [r [Hr Hst]]]]]. conjs; try assumption;
      try (now destruct Hg as (? & ? & ? & ? & ?)).
    right. left. exists w', r. conjs; first [reflexivity | assumption].
  - destruct H as [Hg [[Hn _]|[_ [Hs [Hno Hnr]]]]]; [contradiction|].
    conjs; try assumption; try (now destruct Hg as (? & ? & ? & ? & ?)).
    right. right. exists e, w'. conjs; first [reflexivity | assumption].
Qed.

(** X4.  The listing of the posts sends one request without credentials
    and returns exactly when the answer has status 200 and a JSON array as
    its body (an empty one will do); it raises otherwise. *)
Theorem get_all_posts_gate (w : world) :
  (exists w',
      test_get_all_posts w = (Ok true, w') /\
      listed (answer list_posts_request w) /\
      sent w' = (sent w ++ [list_posts_request])%list /\
      same_globals w w')
  \/
  (exists e w',
      test_get_all_posts w = (Raise e, w') /\
      ~ listed (answer list_posts_request w) /\
      sent w' = (sent w ++ [list_posts_request])%list /\
      same_globals w w').
Proof.
  pose proof (test_get_all_posts_listed w) as H.
  pose proof (test_get_all_posts_cases w) as H'.
  destruct (test_get_all_posts w) as [[flag|e] w'].
  - destruct H as [-> Hl]. destruct H' as [Hs Hg]. left. exists w'. conjs; first [reflexivity | assumption].
  - destruct H as [Hs [Hg Hl]]. right. exists e, w'. conjs; first [reflexivity | assumption].
Qed.

(** X5.  The listing of the comments returns exactly when a post id is
    held and the answer has status 200 and a JSON array as its body; the
    request goes to the address built from the post id. *)
Theorem get_comments_gate (w : world) :
  (exists w',
      test_get_comments w = (Ok true, w') /\
      post_id w <> JNull /\
      listed (answer (comments_request (post_id w)) w) /\
      sent w' = (sent w ++ [comments_request (post_id w)])%list /\
      same_globals w w')
  \/
  (exists e w',
      test_get_comments w = (Raise e, w') /\
      (post_id w = JNull \/ ~ listed (answer (comments_request (post_id w)) w)) /\
      same_globals w w').
Proof.
  pose proof (test_get_comments_cases w) as H.
  destruct (test_get_comments w) as [[flag|e] w'].
  - destruct H as [-> [Hp [Hs [Hg Hl]]]]. left. exists w'. conjs; first [reflexivity | assumption].
  - destruct H as [Hg Hl]. right. exists e, w'. conjs; first [reflexivity | assumption].
Qed.

(** X6.  The comment step returns exactly when a token and a post id are
    held and the answer has status 201, an id that is not null (now
    [comment_id]), the text sent, the id of the post and a [created_at]
    field; token, user id and post id are left as they were, whether it
    returns or raises. *)
Theorem create_comment_gate (w : world) :
  (exists w',
      test_create_comment w = (Ok true, w') /\
      auth_token w <> JNull /\ post_id w <> JNull /\
      comment_accepted (answer (comment_request (auth_token w) (post_id w)) w)
                       (post_id w) (comment_id w') /\
      sent w' = (sent w ++ [comment_request (auth_token w) (post_id w)])%list /\
      auth_token w' = auth_token w /\ user_id w' = user_id w /\
      post_id w' = post_id w)
  \/
  (exists e w',
      test_create_comment w = (Raise e, w') /\
      (auth_token w = JNull \/ post_id w = JNull \/
       forall cid,
         ~ comment_accepted
             (answer (comment_request (auth_token w) (post_id w)) w)
             (post_id w) cid) /\
      auth_token w' = auth_token w /\ user_id w' = user_id w /\
      post_id w' = post_id w).
Proof.
  pose proof (test_create_comment_cases w) as H.
  destruct (test_create_comment w) as [[flag|e] w'].
  - destruct H as (-> & ? & ? & ? & ? & ? & ? & ?). left. exists w'. conjs; first [reflexivity | assumption].
  - destruct H as (? & ? & ? & ?). right. exists e, w'. conjs; first [reflexivity | assumption].
Qed.

(** X7.  The like step returns exactly when a token and a post id are held
    and the answer has status 201, an [id] field, the id of the post and
    the id of the user held in [user_id]; the globals are left alone. *)
Theorem like_post_gate (w : world) :
  (exists w',
      test_like_post w = (Ok true, w') /\
      auth_token w <> JNull /\ post_id w <> JNull /\
      like_accepted (answer (like_request (auth_token w) (post_id w)) w)
                    (post_id w) (user_id w) /\
      sent w' = (sent w ++ [like_request (auth_token w) (post_id w)])%list /\
      same_globals w w')
  \/
  (exists e w',
      test_like_post w = (Raise e, w') /\
      (auth_token w = JNull \/ post_id w = JNull \/
       ~ like_accepted (answer (like_request (auth_token w) (post_id w)) w)
                       (post_id w) (user_id w)) /\
      same_globals w w').
Proof.
  pose proof (test_like_post_cases w) as H.
  destruct (test_like_post w) as [[flag|e] w'].
  - destruct H as (-> & ? & ? & ? & ? & ?). left. exists w'. conjs; first [reflexivity | assumption].
  - destruct H as (? & ?). right. exists e, w'. conjs; first [reflexivity | assumption].
Qed.

(** X8.  The unlike step returns exactly when a token and a post id are
    held and the answer has status 204: the body is never decoded, so any
    body will do. *)
Theorem unlike_post_gate (w : world) :
  (exists w',
      test_unlike_post w = (Ok true, w') /\
      auth_token w <> JNull /\ post_id w <> JNull /\
      answered_with 204
        (answer (unlike_request (auth_token w) (post_id w)) w) /\
      sent w' = (sent w ++ [unlike_request (auth_token w) (post_id w)])%list /\
      same_globals w w')
  \/
  (exists e w',
      test_unlike_post w = (Raise e, w') /\
      (auth_token w = JNull \/ post_id w = JNull \/
       ~ answered_with 204
           (answer (unlike_request (auth_token w) (post_id w)) w)) /\
      same_globals w w').
Proof.
  pose proof (test_unlike_post_cases w) as H.
  destruct (test_unlike_post w) as [[flag|e] w'].
  - destruct H as (-> & ? & ? & ? & ? & ?). left. exists w'. conjs; first [reflexivity | assumption].
  - destruct H as (? & ?). right. exists e, w'. conjs; first [reflexivity | assumption].
Qed.

(** X9.  Without a token, each of the steps that use one (profile, post
    creation and update, comment, like, unlike) raises "No auth token
    available" before sending anything: no request goes out, and backend
    and globals are untouched. *)
Theorem no_request_without_token (w : world) (s : M bool) :
  auth_token w = JNull ->
  In s token_steps ->
  exists w',
    s w = (Raise (AssertionError [Lit "No auth token available"]), w') /\
    sent w' = sent w /\ server w' = server w /\ same_globals w w'.
Proof.
  intros Htok Hin. unfold token_steps in Hin. simpl in Hin.
  repeat (destruct Hin as [<-|Hin]); [..|contradiction];
    unfold_steps; unfold same_globals; plumb; rewrite Htok; cbn [is_none negb];
    eexists; conjs; reflexivity.
Qed.

(** X10.  Without a post id, each of the steps that use one (fetch,
    update, comment, comments listing, like, unlike) raises an assertion
    failure before sending anything: "No post ID available", or "No auth
    token available" when the step needs a token and there is none. *)
Theorem no_request_without_post (w : world) (s : M bool) :
  post_id w = JNull ->
  In s post_steps ->
  exists msg w',
    s w = (Raise (AssertionError msg), w') /\
    (msg = [Lit "No post ID available"] \/
     msg = [Lit "No auth token available"] /\ auth_token w = JNull) /\
    sent w' = sent w /\ server w' = server w /\ same_globals w w'.
Proof.
  intros Hpid Hin. unfold post_steps in Hin. simpl in Hin.
  repeat (destruct Hin as [<-|Hin]); [..|contradiction];
    unfold_steps; unfold same_globals; plumb; rewrite Hpid; cbn [is_none negb];
    try (destruct (is_none (auth_token w)) eqn:Htok; cbn [negb]; facts);
    do 2 eexists; conjs; try reflexivity; auto.
Qed.

(** The operations on decoded JSON raise no [AssertionError]. *)
Lemma py_get_not_assertion (d : json) (k : string) (v : json) (e : exn) :
  py_get d k v = Raise e -> is_assertion e = false.
Proof.
  destruct d; simpl; try (now intros [= <-]).
  destruct (lookup k fields); discriminate.
Qed.

Lemma py_getitem_not_assertion (d : json) (k : string) (e : exn) :
  py_getitem d k = Raise e -> is_assertion e = false.
Proof.
  destruct d; simpl; try (now intros [= <-]).
  destruct (lookup k fields); [discriminate | now intros [= <-]].
Qed.

Lemma py_in_not_assertion (k : string) (c : json) (e : exn) :
  py_in k c = Raise e -> is_assertion e = false.
Proof. destruct c; simpl; try discriminate; now intros [= <-]. Qed.

Lemma py_len_not_assertion (v : json) (e : exn) :
  py_len v = Raise e -> is_assertion e = false.
Proof. destruct v; simpl; try discriminate; now intros [= <-]. Qed.

Ltac not_assertion :=
  match goal with
  | H : py_get _ _ _ = Raise _ |- _ => apply py_get_not_assertion in H
  | H : py_getitem _ _ = Raise _ |- _ => apply py_getitem_not_assertion in H
  | H : py_in _ _ = Raise _ |- _ => apply py_in_not_assertion in H
  | H : py_len _ = Raise _ |- _ => apply py_len_not_assertion in H
  end; discriminate.

(** What every call of the [try] block keeps to: it leaves
    [verification_token] alone, and it fails on a missing token or post id
    only when the token or post id is missing. *)
Lemma steps_audit (s : M unit) (w : world) :
  In s test_steps ->
  verification_token (snd (s w)) = verification_token w /\
  match s w with
  | (Ok _, _) => True
  | (Raise e, _) =>
      (e = AssertionError [Lit "No auth token available"] -> auth_token w = JNull) /\
      (e = AssertionError [Lit "No post ID available"] -> post_id w = JNull)
  end.
Proof.
  unfold test_steps. intros Hin. simpl in Hin.
  repeat (destruct Hin as [<-|Hin]); [..|contradiction];
    unfold_steps; plumb; repeat branch; facts; cbn [snd];
    (split; [reflexivity|]); try exact I;
    split; intros He; first [discriminate He | assumption | subst; not_assertion].
Qed.

(** A property that every call of a list hands on when it returns is
    handed on by a run of the list that returns. *)
Lemma run_all_returns (P : world -> Prop) (l : list (M unit)) :
  (forall s w w', In s l -> s w = (Ok tt, w') -> P w -> P w') ->
  forall w w', run_all l w = (Ok tt, w') -> P w -> P w'.
Proof.
  induction l as [|s l IH]; intros Hstep w w'; simpl.
  - unfold ret. now intros [= <-].
  - unfold bind. destruct (s w) as [[[]|e] w1] eqn:Hs; [|discriminate].
    intros Hrun HP. apply (IH (fun s' a b Hin => Hstep s' a b (or_intror Hin)) w1);
      [exact Hrun|]. now apply (Hstep s w w1 (or_introl eq_refl)).
Qed.

Lemma post_steps_keep_post_id (s : M unit) (w : world) :
  In s (skipn 7 test_steps) -> post_id (snd (s w)) = post_id w.
Proof.
  unfold test_steps. intros Hin. simpl in Hin.
  repeat (destruct Hin as [<-|Hin]); [..|contradiction];
    unfold_steps; plumb; repeat branch; reflexivity.
Qed.

Lemma token_stays_set (s : M unit) (w w' : world) :
  In s (skipn 1 test_steps) ->
  s w = (Ok tt, w') -> auth_token w <> JNull -> auth_token w' <> JNull.
Proof.
  intros Hin Hs Htok.
  change (skipn 1 test_steps) with
    ([call test_login_before_verification;
      call test_email_verification_request;
      call test_email_verification_confirm]
       ++ call test_login :: skipn 5 test_steps)%list in Hin.
  apply in_app_or in Hin as [Hin|[<-|Hin]].
  - pose proof (early_steps_keep_globals s w Hin) as [Ha _].
    rewrite Hs in Ha. cbn [snd] in Ha. congruence.
  - apply call_inv in Hs as [flag Hs].
    pose proof (test_login_cases w) as H. rewrite Hs in H.
    destruct flag.
    + destruct H as [_ [_ (? & ? & ? & ? & ? & ? & ? & ? & ? & ? & ?)]]. assumption.
    + destruct H as [_ [[Ha _] _]]. congruence.
  - pose proof (later_steps_keep_token s w Hin) as [Ha _].
    rewrite Hs in Ha. cbn [snd] in Ha. congruence.
Qed.

Lemma reaches_split (b : backend) (n m : nat) (w : world) :
  reaches b (n + m) w ->
  exists wn, reaches b n wn /\
             run_all (firstn m (skipn n test_steps)) wn = (Ok tt, w).
Proof.
  unfold reaches. rewrite firstn_plus, run_all_app.
  destruct (run_all (firstn n test_steps) (started b)) as [[[]|e] wn];
    [|discriminate].
  intros H. now exists wn.
Qed.

Lemma token_set_after_registration (b : backend) (k : nat) (w : world) :
  reaches b k w -> (1 <= k)%nat -> auth_token w <> JNull.
Proof.
  intros Hr Hk.
  replace k with (1 + (k - 1))%nat in Hr by lia.
  apply reaches_split in Hr as [w1 [H1 Hrest]].
  apply (run_all_returns (fun w => auth_token w <> JNull)
           (firstn (k - 1) (skipn 1 test_steps))) with (w := w1);
    [ | exact Hrest | ].
  - intros s a c Hin. apply token_stays_set. now apply In_firstn in Hin.
  - destruct (reaches_inv b 0 _ w1 eq_refl H1) as [w0 [H0 S0]].
    unfold reaches in H0. simpl in H0. injection H0 as <-.
    apply call_inv in S0 as [flag S0].
    pose proof (test_registration_cases (started b)) as Hreg.
    rewrite S0 in Hreg.
    destruct Hreg as [_ [_ (? & ? & ? & ? & ? & ? & ? & ? & ? & ? & ?)]].
    assumption.
Qed.

Lemma post_id_set_after_creation (b : backend) (k : nat) (w : world) :
  reaches b k w -> (7 <= k)%nat -> post_id w <> JNull.
Proof.
  intros Hr Hk.
  replace k with (7 + (k - 7))%nat in Hr by lia.
  apply reaches_split in Hr as [w7 [H7 Hrest]].
  apply (run_all_returns (fun w => post_id w <> JNull)
           (firstn (k - 7) (skipn 7 test_steps))) with (w := w7);
    [ | exact Hrest | ].
  - intros s a c Hin Hs Hp. apply In_firstn in Hin.
    pose proof (post_steps_keep_post_id s a Hin) as Hk7.
    rewrite Hs in Hk7. cbn [snd] in Hk7. congruence.
  - destruct (reaches_inv b 6 _ w7 eq_refl H7) as [w6 [H6 S6]].
    apply call_inv in S6 as [flag S6].
    pose proof (test_create_post_cases w6) as Hc. rewrite S6 in Hc.
    destruct Hc as [_ [_ [_ [_ (? & ? & ? & ? & ? & ? & ? & ? & ?)]]]].
    assumption.
Qed.


(** X12.  So in a run of [main] the guards are dead: a call after the
    registration never fails with "No auth token available", and a call
    after the post creation never fails with "No post ID available". *)
Theorem guards_never_fire (b : backend) (k : nat) (s : M unit)
        (w w' : world) (e : exn) :
  nth_error test_steps k = Some s ->
  reaches b k w ->
  s w = (Raise e, w') ->
  ((1 <= k)%nat -> e <> AssertionError [Lit "No auth token available"]) /\
  ((7 <= k)%nat -> e <> AssertionError [Lit "No post ID available"]).
Proof.
  intros Hk Hr Hs.
  pose proof (steps_audit s w (nth_error_In _ _ Hk)) as [_ Ha].
  rewrite Hs in Ha. destruct Ha as [Ht Hp].
  split; intros Hge He.
  - now apply (token_set_after_registration b k w Hr Hge), Ht.
  - now apply (post_id_set_after_creation b k w Hr Hge), Hp.
Qed.

(** X13.  Whatever the backend does, [verification_token] is still [None]
    when [main] ends: no step assigns it. *)
Theorem verification_token_never_set (b : backend) :
  verification_token (snd (main (initial b))) = JNull.
Proof.
  rewrite (main_resumes b 0 (started b) (reaches_zero b)).
  destruct (closing_sends_nothing (skipn 0 test_steps) (started b))
    as [wf [-> [_ [_ Hv]]]].
  cbn [snd skipn] in *. rewrite Hv.
  apply (run_all_invariant
           (fun a c => verification_token c = verification_token a) test_steps).
  - reflexivity.
  - intros a c d H1 H2. congruence.
  - intros s w0 Hin. apply (steps_audit s w0 Hin).
Qed.
(** Membership in a list that computes. *)
Ltac among := simpl; repeat first [left; reflexivity | right].

(** X14.  A run that goes through all sixteen calls has sent exactly these
    twenty requests, in this order, where the token is the one in use
    after [test_login] and the post id the one captured at creation: the
    requests before the profile carry no credentials, and every address
    built from a post id uses the same one. *)
Theorem complete_run_trace (b : backend) (w : world) :
  reaches b 16 w ->
  sent w = full_trace (auth_token w) (post_id w).
Proof.
  intros H16.
  destruct (reaches_inv b 15 _ w eq_refl H16) as [w15 [H15 S15]].
  destruct (reaches_inv b 14 _ w15 eq_refl H15) as [w14 [H14 S14]].
  destruct (reaches_inv b 13 _ w14 eq_refl H14) as [w13 [H13 S13]].
  destruct (reaches_inv b 12 _ w13 eq_refl H13) as [w12 [H12 S12]].
  destruct (reaches_inv b 11 _ w12 eq_refl H12) as [w11 [H11 S11]].
  destruct (reaches_inv b 10 _ w11 eq_refl H11) as [w10 [H10 S10]].
  destruct (reaches_inv b 9 _ w10 eq_refl H10) as [w9 [H9 S9]].
  destruct (reaches_inv b 8 _ w9 eq_refl H9) as [w8 [H8 S8]].
  destruct (reaches_inv b 7 _ w8 eq_refl H8) as [w7 [H7 S7]].
  destruct (reaches_inv b 6 _ w7 eq_refl H7) as [w6 [H6 S6]].
  destruct (reaches_inv b 5 _ w6 eq_refl H6) as [w5 [H5 S5]].
  destruct (reaches_inv b 4 _ w5 eq_refl H5) as [w4 [H4 S4]].
  destruct (reaches_inv b 3 _ w4 eq_refl H4) as [w3 [H3 S3]].
  destruct (reaches_inv b 2 _ w3 eq_refl H3) as [w2 [H2 S2]].
  destruct (reaches_inv b 1 _ w2 eq_refl H2) as [w1 [H1 S1]].
  destruct (reaches_inv b 0 _ w1 eq_refl H1) as [w0 [H0 S0]].
  unfold reaches in H0. simpl in H0. injection H0 as <-.
  (* the token from [test_profile] on, the post id from the listing on *)
  assert (T : forall s a c, In s (skipn 5 test_steps) -> s a = (Ok tt, c) ->
                            auth_token c = auth_token a).
  { intros s a c Hin Hs. pose proof (later_steps_keep_token s a Hin) as [Ha _].
    now rewrite Hs in Ha. }
  assert (P : forall s a c, In s (skipn 7 test_steps) -> s a = (Ok tt, c) ->
                            post_id c = post_id a).
  { intros s a c Hin Hs. pose proof (post_steps_keep_post_id s a Hin) as Hp.
    now rewrite Hs in Hp. }
  pose proof (T (call test_profile) _ _ ltac:(among) S5) as T5.
  pose proof (T (call test_create_post) _ _ ltac:(among) S6) as T6.
  pose proof (T (call test_get_all_posts) _ _ ltac:(among) S7) as T7.
  pose proof (T (call test_get_single_post) _ _ ltac:(among) S8) as T8.
  pose proof (T (call test_update_post) _ _ ltac:(among) S9) as T9.
  pose proof (T (call test_create_comment) _ _ ltac:(among) S10) as T10.
  pose proof (T (call test_get_comments) _ _ ltac:(among) S11) as T11.
  pose proof (T (call test_like_post) _ _ ltac:(among) S12) as T12.
  pose proof (T (call test_unlike_post) _ _ ltac:(among) S13) as T13.
  pose proof (T (call test_error_cases) _ _ ltac:(among) S14) as T14.
  pose proof (T (call test_validation_errors) _ _ ltac:(among) S15) as T15.
  pose proof (P (call test_get_all_posts) _ _ ltac:(among) S7) as P7.
  pose proof (P (call test_get_single_post) _ _ ltac:(among) S8) as P8.
  pose proof (P (call test_update_post) _ _ ltac:(among) S9) as P9.
  pose proof (P (call test_create_comment) _ _ ltac:(among) S10) as P10.
  pose proof (P (call test_get_comments) _ _ ltac:(among) S11) as P11.
  pose proof (P (call test_like_post) _ _ ltac:(among) S12) as P12.
  pose proof (P (call test_unlike_post) _ _ ltac:(among) S13) as P13.
  pose proof (P (call test_error_cases) _ _ ltac:(among) S14) as P14.
  pose proof (P (call test_validation_errors) _ _ ltac:(among) S15) as P15.
  (* what each call sent *)
  apply call_inv in S0 as [f0 S0]. apply call_inv in S1 as [f1 S1].
  apply call_inv in S2 as [f2 S2]. apply call_inv in S3 as [f3 S3].
  apply call_inv in S4 as [f4 S4]. apply call_inv in S5 as [f5 S5].
  apply call_inv in S6 as [f6 S6]. apply call_inv in S7 as [f7 S7].
  apply call_inv in S8 as [f8 S8]. apply call_inv in S9 as [f9 S9].
  apply call_inv in S10 as [f10 S10]. apply call_inv in S11 as [f11 S11].
  apply call_inv in S12 as [f12 S12]. apply call_inv in S13 as [f13 S13].
  apply call_inv in S14 as [f14 S14]. apply call_inv in S15 as [f15 S15].
  pose proof (test_registration_cases (started b)) as C0. rewrite S0 in C0.
  pose proof (test_login_before_verification_cases w1) as C1. rewrite S1 in C1.
  pose proof (test_email_verification_request_cases w2) as C2. rewrite S2 in C2.
  pose proof (test_email_verification_confirm_cases w3) as C3. rewrite S3 in C3.
  pose proof (test_login_cases w4) as C4. rewrite S4 in C4.
  pose proof (test_profile_cases w5) as C5. rewrite S5 in C5.
  pose proof (test_create_post_cases w6) as C6. rewrite S6 in C6.
  pose proof (test_get_all_posts_cases w7) as C7. rewrite S7 in C7.
  pose proof (test_get_single_post_cases w8) as C8. rewrite S8 in C8.
  pose proof (test_update_post_cases w9) as C9. rewrite S9 in C9.
  pose proof (test_create_comment_cases w10) as C10. rewrite S10 in C10.
  pose proof (test_get_comments_cases w11) as C11. rewrite S11 in C11.
  pose proof (test_like_post_cases w12) as C12. rewrite S12 in C12.
  pose proof (test_unlike_post_cases w13) as C13. rewrite S13 in C13.
  pose proof (test_error_cases_cases w14) as C14. rewrite S14 in C14.
  pose proof (test_validation_errors_cases w15) as C15. rewrite S15 in C15.
  destruct C0 as (_ & E0 & _). destruct C1 as (_ & E1 & _).
  destruct C2 as (_ & E2 & _). destruct C3 as (_ & E3 & _).
  assert (E4 : sent w5 = (sent w4 ++ [login_request])%list)
    by (destruct f4; now destruct C4 as (E4 & _)).
  assert (E5 : sent w6 = (sent w5 ++ [profile_request (auth_token w5)])%list)
    by (destruct f5; now destruct C5 as (_ & E5 & _)).
  destruct C6 as (_ & E6 & _). destruct C7 as (E7 & _).
  destruct C8 as (_ & E8 & _). destruct C9 as (_ & E9 & _).
  destruct C10 as (_ & _ & _ & E10 & _). destruct C11 as (_ & _ & E11 & _).
  destruct C12 as (_ & _ & _ & E12 & _). destruct C13 as (_ & _ & _ & E13 & _).
  destruct C14 as (E14 & _). destruct C15 as (E15 & _).
  assert (Tk : forall x, In x [w6; w7; w8; w9; w10; w11; w12; w13; w14; w15] ->
                         auth_token x = auth_token w).
  { intros x Hx. simpl in Hx. intuition (subst; congruence). }
  assert (Pk : forall x, In x [w8; w9; w10; w11; w12; w13; w14; w15] ->
                         post_id x = post_id w).
  { intros x Hx. simpl in Hx. intuition (subst; congruence). }
  assert (T5' : auth_token w5 = auth_token w) by congruence.
  rewrite E15, E14, E13, E12, E11, E10, E9, E8, E7, E6, E5, E4, E3, E2, E1, E0.
  rewrite T5', (Tk w6), (Tk w9), (Tk w10), (Tk w12), (Tk w13) by among.
  rewrite (Pk w8), (Pk w9), (Pk w10), (Pk w11), (Pk w12), (Pk w13) by among.
  unfold full_trace. rewrite <- !app_assoc. reflexivity.
Qed.

(** A run of a list of calls returns, or stops at the first call that
    raises. *)
Lemma run_all_outcome (l : list (M unit)) (w : world) :
  (exists w', run_all l w = (Ok tt, w')) \/
  (exists k s wk e w',
      nth_error l k = Some s /\
      run_all (firstn k l) w = (Ok tt, wk) /\
      s wk = (Raise e, w')).
Proof.
  revert w. induction l as [|s l IH]; intros w.
  - left. now exists w.
  - destruct (s w) as [[[]|e] w1] eqn:Hs.
    + destruct (IH w1) as [[w' H]|(k & s' & wk & e & w' & Hk & Hr & Hs')].
      * left. exists w'. simpl. unfold bind. now rewrite Hs.
      * right. exists (S k), s', wk, e, w'. repeat split; try assumption.
        simpl. unfold bind. now rewrite Hs.
    + right. exists 0%nat, s, w, e, w1. now repeat split.
Qed.

Lemma emit_prints (ev : event) : prints (emit ev) [ev].
Proof. intros w. unfold emit. eexists. repeat split. Qed.

Lemma then_prints (m k : M unit) (l1 l2 : list event) :
  prints m l1 -> prints k l2 -> prints (m ;; k) (l1 ++ l2).
Proof.
  intros Hm Hk w. unfold bind.
  destruct (Hm w) as [w1 [-> [P1 [S1 B1]]]].
  destruct (Hk w1) as [w2 [-> [P2 [S2 B2]]]].
  exists w2. repeat split; try congruence.
  now rewrite P2, P1, app_assoc.
Qed.

Lemma print_then (line : fstring) (k : M unit) (l : list event) :
  prints k l -> prints (print line ;; k) (Print line :: l).
Proof. intros Hk. apply (then_prints _ _ [Print line] l); [apply emit_prints | exact Hk]. Qed.

Lemma print_prints (line : fstring) : prints (print line) [Print line].
Proof. apply emit_prints. Qed.

Lemma print_summary_prints :
  prints print_summary (firstn 7 closing_lines).
Proof.
  unfold print_summary, closing_lines. cbn [firstn].
  do 6 apply print_then. apply print_prints.
Qed.

Lemma cleanup_prints :
  prints cleanup_test_data (skipn 7 closing_lines).
Proof.
  unfold cleanup_test_data, closing_lines. cbn [skipn].
  apply print_then. apply print_prints.
Qed.

Lemma closing_prints : prints (print_summary ;; cleanup_test_data) closing_lines.
Proof.
  rewrite <- (firstn_skipn 7 closing_lines).
  apply then_prints; [apply print_summary_prints | apply cleanup_prints].
Qed.

(** X15.  [main] raises nothing, whatever the backend does.  Either all
    sixteen calls returned, and then the summary and the cleanup lines are
    the last thing printed and nothing is sent after the last call; or
    some call raised, the calls before it having returned, and [main] is
    what the handler makes of that exception. *)
Theorem main_always_returns (b : backend) :
  exists wf,
    main (initial b) = (Ok tt, wf) /\
    ((exists w16,
         reaches b 16 w16 /\
         sent wf = sent w16 /\ server wf = server w16 /\
         printed wf = (printed w16 ++ closing_lines)%list)
     \/
     (exists k s w e w',
         nth_error test_steps k = Some s /\
         reaches b k w /\
         s w = (Raise e, w') /\
         main (initial b) = handler e w')).
Proof.
  destruct (run_all_outcome test_steps (started b))
    as [[w16 H16]|(k & s & w & e & w' & Hk & Hr & Hs)].
  - assert (Hreach : reaches b 16 w16) by exact H16.
    rewrite (main_resumes b 16 w16 Hreach).
    change (skipn 16 test_steps) with (@nil (M unit)).
    unfold try_except. cbn [run_all]. unfold bind at 1. unfold ret at 1.
    destruct (closing_prints w16) as [wf [-> [Hp [Hs Hb]]]].
    exists wf. split; [reflexivity|]. left. exists w16. now repeat split.
  - assert (Hreach : reaches b k w) by exact Hr.
    rewrite (main_stops b k s w w' e Hk Hreach Hs).
    destruct (handler_returns e w') as [wf [Hh _]].
    exists wf. split; [exact Hh|]. right. exists k, s, w, e, w'.
    now repeat split.
Qed.

(** *** The claims on the duplicate registration and the refused login *)

(** No call of the [try] block submits the registered email under another
    username. *)
Lemma steps_keep_account (s : M unit) (w : world) :
  In s test_steps ->
  extends_with (fun rq => other_username timestamp rq = false) w (snd (s w)).
Proof.
  unfold test_steps. intros Hin. simpl in Hin.
  repeat (destruct Hin as [<-|Hin]); [..|contradiction];
    unfold_steps; unfold test_user, test_user_of; plumb; repeat branch; simpl;
    wire_log;
    unfold other_username, test_user, test_user_of, test_email_of,
      test_username_of, invalid_login, bad_email_data, short_password_data;
    simpl; rewrite ?String.eqb_refl; reflexivity.
Qed.

(** C8, as the script has it.  In a run that got as far as the error
    cases, the registration request was the first one sent, and the step
    sends the very same request (same email, same username, same
    password) a second time; the step returns only if that second
    registration is answered with status 400, and otherwise raises and
    the run ends in the handler.  In no run does the script submit the
    registered email under another username. *)
Theorem duplicate_registration_gate (b : backend) (w : world) :
  reaches b 14 w ->
  (exists rest, sent w = register_request :: rest) /\
  ((exists w' r1 b1 r2 b2,
       test_error_cases w = (Ok tt, w') /\
       sent w' = (sent w ++ [invalid_login_request; register_request;
                             invalid_token_request; missing_post_request])%list /\
       serve invalid_login_request (server w) = (Responded r1, b1) /\
       serve register_request b1 = (Responded r2, b2) /\
       status_code r2 = 400 /\
       reaches b 15 w')
   \/
   (exists e w',
       test_error_cases w = (Raise e, w') /\
       ~ error_cases_answered w /\
       main (initial b) = handler e w')) /\
  Forall (fun rq => other_username timestamp rq = false)
         (sent (snd (main (initial b)))).
Proof.
  intros Hr. split; [apply (registration_sent_first b 14 w); [lia | exact Hr]|].
  split.
  - pose proof (test_error_cases_cases w) as H.
    pose proof (step_or_stop b 14 test_error_cases w eq_refl Hr) as Hgo.
    destruct (test_error_cases w) as [[[]|e] w'].
    + destruct H as [Hs (r1 & b1 & r2 & b2 & r3 & b3 & r4 & b4 & H1 & S1 & H2 & S2 & _)].
      left. exists w', r1, b1, r2, b2. now repeat split.
    + right. exists e, w'. destruct Hgo as [Hm _]. now repeat split.
  - rewrite (main_resumes b 0 (started b) (reaches_zero b)).
    destruct (closing_sends_nothing (skipn 0 test_steps) (started b))
      as [wf [-> [Hs _]]].
    cbn [snd skipn] in *. rewrite Hs.
    destruct (run_all_invariant
                (extends_with (fun rq => other_username timestamp rq = false))
                test_steps (extends_with_refl _) (extends_with_trans _)
                (fun s w0 Hin => steps_keep_account s w0 Hin) (started b))
      as [new [Hnew Hall]].
    rewrite Hnew. exact Hall.
Qed.

(** C9, as the script has it.  In a run whose login after the
    confirmation is answered with a status other than 200, [test_login]
    returns [False] and raises nothing; the token is still the one the
    registration answer held; the run goes on with the calls that follow,
    the first of which sends the profile request with that token as
    bearer; to the end of the run the token stays the same and every
    request carries it, or no credentials, or the invalid bearer of the
    error cases; and either all sixteen calls return, or one of the calls
    after the login raises, the calls before it having returned, and the
    run ends there in the handler. *)
Theorem refused_login_does_not_abort (b : backend) (w : world)
        (r : response) (b' : backend) :
  reaches b 4 w ->
  serve login_request (server w) = (Responded r, b') ->
  status_code r <> 200 ->
  exists w5,
    test_login w = (Ok false, w5) /\
    reaches b 5 w5 /\
    auth_token w5 = auth_token w /\
    registration_accepted (answer register_request (started b))
                          (auth_token w5) (user_id w5) /\
    main (initial b) = try_except after_login handler w5 /\
    (exists more,
        sent (snd (main (initial b))) =
          (sent w5 ++ profile_request (auth_token w5) :: more)%list /\
        Forall (authorised_by (auth_token w5)) more) /\
    (forall k wk, (5 <= k)%nat -> reaches b k wk -> auth_token wk = auth_token w5) /\
    ((exists w16, reaches b 16 w16 /\ auth_token w16 = auth_token w5)
     \/
     (exists k s wk e w',
         (5 <= k < 16)%nat /\
         nth_error test_steps k = Some s /\
         reaches b k wk /\
         auth_token wk = auth_token w5 /\
         s wk = (Raise e, w') /\
         main (initial b) = handler e w')).
Proof.
  intros H4 Hs Hst.
  destruct (test_login_refused w r b' Hs Hst) as [w5 [Hrun [Hg [_ _]]]].
  assert (H5 : reaches b 5 w5).
  { apply (reaches_step b 4 (call test_login) w); [reflexivity | exact H4 |].
    now apply (call_ok _ _ _ false). }
  pose proof (token_from_registration b w H4) as Hreg.
  destruct Hg as [Ha [Hu _]].
  assert (Htok : auth_token w5 <> JNull).
  { rewrite Ha. destruct Hreg as (? & ? & ? & ? & ? & ? & ? & ? & ? & ? & ?).
    assumption. }
  assert (Hlater : forall k wk, (5 <= k)%nat -> reaches b k wk ->
                                auth_token wk = auth_token w5).
  { intros k wk Hk Hrk.
    unfold reaches in Hrk, H5.
    replace k with (5 + (k - 5))%nat in Hrk by lia.
    rewrite firstn_plus, run_all_app, H5 in Hrk.
    destruct (later_steps_run (firstn (k - 5) (skipn 5 test_steps)) w5) as [T _].
    { intros s. apply In_firstn. }
    now rewrite Hrk in T. }
  exists w5. conjs; try assumption.
  - now rewrite Ha, Hu.
  - apply (main_resumes b 5 w5 H5).
  - rewrite (main_resumes b 5 w5 H5).
    destruct (closing_sends_nothing (skipn 5 test_steps) w5) as [wf [-> [Hsf _]]].
    cbn [snd]. rewrite Hsf.
    change (skipn 5 test_steps) with (call test_profile :: skipn 6 test_steps).
    cbn [run_all]. unfold bind at 1.
    pose proof (test_profile_sends w5 Htok) as Hp.
    unfold call at 1. unfold bind at 1.
    destruct (test_profile w5) as [[flag|e] w6] eqn:Hprof; cbn [snd ret] in *.
    + destruct (later_steps_run (skipn 6 test_steps) w6) as [T6 [more [Hm Fm]]].
      { intros s Hin. now right. }
      exists more. rewrite Hm, Hp, <- app_assoc. split; [reflexivity|].
      assert (Ht : auth_token w6 = auth_token w5).
      { pose proof (later_steps_keep_token (call test_profile) w5
                      (or_introl eq_refl)) as [T _].
        now rewrite (call_ok _ _ _ _ Hprof) in T. }
      now rewrite <- Ht.
    + exists []. rewrite Hp. split; [reflexivity | constructor].
  - destruct (run_all_outcome (skipn 5 test_steps) w5)
      as [[w16 H16]|(k & s & wk & e & w' & Hk & Hrk & Hsk)].
    + assert (R16 : reaches b 16 w16).
      { unfold reaches in *.
        change (firstn 16 test_steps)
          with (firstn 5 test_steps ++ skipn 5 test_steps)%list.
        now rewrite run_all_app, H5. }
      left. exists w16. split; [exact R16 | apply (Hlater 16%nat); [lia | exact R16]].
    + assert (Rk : reaches b (5 + k) wk).
      { unfold reaches in *. now rewrite firstn_plus, run_all_app, H5. }
      assert (Nk : nth_error test_steps (5 + k) = Some s)
        by now rewrite <- nth_error_skipn.
      assert (Bk : (k < 11)%nat).
      { apply (nth_error_Some (skipn 5 test_steps) k). now rewrite Hk. }
      right. exists (5 + k)%nat, s, wk, e, w'. conjs; try assumption; try lia.
      * apply (Hlater (5 + k)%nat); [lia | exact Rk].
      * now apply (main_stops b (5 + k) s wk w' e).
Qed.

End Properties.

(** ** Properties of the schema *)

(** Induction on a field type, with the hypothesis available for every
    field of a model. *)
Lemma ftype_nested_ind (P : ftype -> Prop) :
  P TStr -> P TEmailStr ->
  (forall fs, Forall (fun f => P (snd f)) fs -> P (TModel fs)) ->
  forall t, P t.
Proof.
  intros Hs He Hm. fix IH 1. intros [| |fs].
  - exact Hs.
  - exact He.
  - apply Hm. induction fs as [|[name t] fs IHfs].
    + constructor.
    + constructor; [apply IH | exact IHfs].
Qed.

Lemma validate_accepts (validate_email : string -> option string)
      (t : ftype) (v : json) :
  (exists v', validate validate_email t v = Some v') <->
  fields_typed t v = true /\ emails_valid validate_email t v = true.
Proof.
  revert v. induction t as [| |fs IH] using ftype_nested_ind; intros v.
  - destruct v; simpl; split; try solve [intros [v' [=]]]; try solve [intros [[=] _]].
    + intros _. now split.
    + intros _. now eexists.
  - destruct v as [| | |s| |]; simpl; split;
      try solve [intros [v' [=]]]; try solve [intros [[=] _]].
    + intros [v' H]. destruct (validate_email s); [now split | discriminate].
    + intros [_ H]. destruct (validate_email s); [now eexists | discriminate].
  - destruct v as [| | | | |kv]; simpl; split;
      try solve [intros [v' [=]]]; try solve [intros [[=] _]].
    + induction IH as [|[name t] fs Ht _ IHfs]; [intros _; now split|].
      simpl in Ht. intros [v' H].
      destruct (lookup name kv) as [x|]; [|discriminate].
      destruct (validate validate_email t x) as [y|] eqn:Hy; [|discriminate].
      match type of H with
      | option_map _ (match ?e with _ => _ end) = _ => destruct e as [rest|] eqn:Hr
      end; [|discriminate].
      destruct (proj1 (Ht x) (ex_intro _ y Hy)) as [-> ->].
      apply IHfs. eexists. reflexivity.
    + induction IH as [|[name t] fs Ht _ IHfs]; [intros _; now eexists|].
      simpl in Ht. intros [Hty Hem].
      destruct (lookup name kv) as [x|]; [|discriminate].
      apply andb_true_iff in Hty as [Hx Hty]. apply andb_true_iff in Hem as [Ex Hem].
      destruct (proj2 (Ht x) (conj Hx Ex)) as [y ->].
      destruct (IHfs (conj Hty Hem)) as [v' Hv'].
      match type of Hv' with
      | option_map _ ?e = _ => destruct e as [rest|]; [|discriminate]
      end.
      now eexists.
Qed.

(** The validated value of a model holds the declared fields and no other. *)
Lemma validated_keys (validate_email : string -> option string)
      (model : list (string * ftype)) (payload : json) (kv : list (string * json)) :
  model_validate validate_email model payload = Some (JDict kv) ->
  map fst kv = map fst model.
Proof.
  unfold model_validate. destruct payload as [| | | | |src]; simpl; try discriminate.
  revert kv. induction model as [|[name t] model IH]; intros kv; simpl.
  - now intros [= <-].
  - destruct (lookup name src) as [x|]; [|discriminate].
    destruct (validate validate_email t x) as [y|]; [|discriminate].
    match goal with
    | |- option_map _ (match ?e with _ => _ end) = _ -> _ => destruct e as [rest|] eqn:Hr
    end; [|discriminate].
    simpl. intros [= <-]. simpl. f_equal. now apply IH.
Qed.

(** C3, as the schema has it.  [schema.py] defines five models: the base
    shape (username, email) and the four payload shapes built on it or
    beside it, namely creation (username, email, password), login (email,
    password), response (username, email, id; no password) and the
    session wrapper (a user response and a token string); every field is
    a string, the email fields are email strings, and [user] is a user
    response.  For each of them a raw payload is accepted if and only if
    it is an object in which every required field is present with a value
    of its declared type (a string; for [user], an object that is itself
    accepted as a user response) and every email field holds an address
    that the email check accepts; and what is accepted keeps the declared
    fields only. *)
Theorem schema_contract :
  schema_models =
    [("UserBase", [("username", TStr); ("email", TEmailStr)]);
     ("UserCreate", [("username", TStr); ("email", TEmailStr); ("password", TStr)]);
     ("UserLogin", [("email", TEmailStr); ("password", TStr)]);
     ("UserResponse", [("username", TStr); ("email", TEmailStr); ("id", TStr)]);
     ("TokenResponse",
      [("user", TModel [("username", TStr); ("email", TEmailStr); ("id", TStr)]);
       ("token", TStr)])] /\
  (forall validate_email payload,
      ((exists v, model_validate validate_email UserCreate payload = Some v) <->
       exists kv, payload = JDict kv /\
                  has_string "username" kv /\
                  has_email validate_email "email" kv /\
                  has_string "password" kv) /\
      ((exists v, model_validate validate_email UserLogin payload = Some v) <->
       exists kv, payload = JDict kv /\
                  has_email validate_email "email" kv /\
                  has_string "password" kv) /\
      ((exists v, model_validate validate_email UserResponse payload = Some v) <->
       exists kv, payload = JDict kv /\
                  has_string "username" kv /\
                  has_email validate_email "email" kv /\
                  has_string "id" kv) /\
      ((exists v, model_validate validate_email TokenResponse payload = Some v) <->
       exists kv ukv, payload = JDict kv /\
                      lookup "user" kv = Some (JDict ukv) /\
                      has_string "username" ukv /\
                      has_email validate_email "email" ukv /\
                      has_string "id" ukv /\
                      has_string "token" kv) /\
      ((exists v, model_validate validate_email UserBase payload = Some v) <->
       exists kv, payload = JDict kv /\
                  has_string "username" kv /\
                  has_email validate_email "email" kv)) /\
  (forall validate_email model payload kv,
      model_validate validate_email model payload = Some (JDict kv) ->
      map fst kv = map fst model).
Proof.
  split; [reflexivity|]. split; [|intros ve model payload kv; apply validated_keys].
  intros ve payload. unfold has_string, has_email.
  repeat match goal with |- _ /\ _ => split end; split.
  - intros [v H]. unfold model_validate in H.
    destruct payload as [| | | | |kv]; simpl in H; try discriminate.
    exists kv. split; [reflexivity|].
    destruct (lookup "username" kv) as [[| | |u| |]|]; simpl in H; try discriminate.
    destruct (lookup "email" kv) as [[| | |e| |]|]; simpl in H; try discriminate.
    destruct (ve e) eqn:Ee; simpl in H; try discriminate.
    destruct (lookup "password" kv) as [[| | |p| |]|]; simpl in H; try discriminate.
    repeat split; eexists; try split; try reflexivity; congruence.
  - intros (kv & -> & (u & Hu) & (e & He & Hv) & (p & Hp)).
    unfold model_validate. simpl. rewrite Hu, He, Hp.
    destruct (ve e); [|contradiction]. simpl. eexists; reflexivity.
  - intros [v H]. unfold model_validate in H.
    destruct payload as [| | | | |kv]; simpl in H; try discriminate.
    exists kv. split; [reflexivity|].
    destruct (lookup "email" kv) as [[| | |e| |]|]; simpl in H; try discriminate.
    destruct (ve e) eqn:Ee; simpl in H; try discriminate.
    destruct (lookup "password" kv) as [[| | |p| |]|]; simpl in H; try discriminate.
    repeat split; eexists; try split; try reflexivity; congruence.
  - intros (kv & -> & (e & He & Hv) & (p & Hp)).
    unfold model_validate. simpl. rewrite He, Hp.
    destruct (ve e); [|contradiction]. simpl. eexists; reflexivity.
  - intros [v H]. unfold model_validate in H.
    destruct payload as [| | | | |kv]; simpl in H; try discriminate.
    exists kv. split; [reflexivity|].
    destruct (lookup "username" kv) as [[| | |u| |]|]; simpl in H; try discriminate.
    destruct (lookup "email" kv) as [[| | |e| |]|]; simpl in H; try discriminate.
    destruct (ve e) eqn:Ee; simpl in H; try discriminate.
    destruct (lookup "id" kv) as [[| | |p| |]|]; simpl in H; try discriminate.
    repeat split; eexists; try split; try reflexivity; congruence.
  - intros (kv & -> & (u & Hu) & (e & He & Hv) & (p & Hp)).
    unfold model_validate. simpl. rewrite Hu, He, Hp.
    destruct (ve e); [|contradiction]. simpl. eexists; reflexivity.
  - intros [v H]. unfold model_validate in H.
    destruct payload as [| | | | |kv]; simpl in H; try discriminate.
    destruct (lookup "user" kv) as [[| | | | |ukv]|] eqn:Hk; simpl in H;
      try discriminate.
    exists kv, ukv. split; [reflexivity|]. split; [exact Hk|].
    destruct (lookup "username" ukv) as [[| | |u| |]|]; simpl in H; try discriminate.
    destruct (lookup "email" ukv) as [[| | |e| |]|]; simpl in H; try discriminate.
    destruct (ve e) eqn:Ee; simpl in H; try discriminate.
    destruct (lookup "id" ukv) as [[| | |p| |]|]; simpl in H; try discriminate.
    destruct (lookup "token" kv) as [[| | |t| |]|]; simpl in H; try discriminate.
    repeat split; eexists; try split; try reflexivity; congruence.
  - intros (kv & ukv & -> & Hk & (u & Hu) & (e & He & Hv) & (p & Hp) & (t & Ht)).
    unfold model_validate. simpl. rewrite Hk. simpl. rewrite Hu, He, Hp, Ht.
    destruct (ve e); [|contradiction]. simpl. eexists; reflexivity.
  - intros [v H]. unfold model_validate in H.
    destruct payload as [| | | | |kv]; simpl in H; try discriminate.
    exists kv. split; [reflexivity|].
    destruct (lookup "username" kv) as [[| | |u| |]|]; simpl in H; try discriminate.
    destruct (lookup "email" kv) as [[| | |e| |]|]; simpl in H; try discriminate.
    destruct (ve e) eqn:Ee; simpl in H; try discriminate.
    repeat split; eexists; try split; try reflexivity; congruence.
  - intros (kv & -> & (u & Hu) & (e & He & Hv)).
    unfold model_validate. simpl. rewrite Hu, He.
    destruct (ve e); [|contradiction]. simpl. eexists; reflexivity.
Qed.

(** C3 as stated fails.  The schema defines five models, not four: the
    base shape is a model of its own, which accepts a payload that each
    of the four others rejects.  And presence is not enough: a creation
    payload whose username is [null] has every required field present and
    a valid email, and is rejected. *)
Lemma presence_is_not_enough :
  let base_payload := JDict [("username", JStr "testuser3");
                             ("email", JStr "test3@example.com")] in
  let payload := JDict [("username", JNull);
                        ("email", JStr "test3@example.com");
                        ("password", JStr "password123")] in
  List.length schema_models = 5%nat /\
  NoDup (map snd schema_models) /\
  model_validate coarse_email UserBase base_payload = Some base_payload /\
  model_validate coarse_email UserCreate base_payload = None /\
  model_validate coarse_email UserLogin base_payload = None /\
  model_validate coarse_email UserResponse base_payload = None /\
  model_validate coarse_email TokenResponse base_payload = None /\
  fields_present (TModel UserCreate) payload = true /\
  emails_valid coarse_email (TModel UserCreate) payload = true /\
  model_validate coarse_email UserCreate payload = None.
Proof.
  cbv zeta. split; [reflexivity|]. split.
  - unfold schema_models, UserCreate, UserResponse, UserLogin, TokenResponse,
      UserBase; simpl.
    repeat (constructor; [simpl; intuition discriminate|]). constructor.
  - repeat match goal with |- _ /\ _ => split end; vm_compute; reflexivity.
Qed.

(** The schema on the payloads the script registers with: the malformed
    email is refused, the short password is not (the schema states no
    password rule), and a response never echoes a password. *)
Example bad_email_rejected :
  model_validate coarse_email UserCreate bad_email_data = None.
Proof. vm_compute. reflexivity. Qed.

Example short_password_accepted :
  model_validate coarse_email UserCreate short_password_data
  = Some short_password_data.
Proof. vm_compute. reflexivity. Qed.

Example response_drops_password :
  model_validate coarse_email UserResponse
    (JDict [("id", JStr "u1"); ("username", JStr "ann");
            ("email", JStr "ann@example.com"); ("password", JStr "secret")])
  = Some (JDict [("username", JStr "ann"); ("email", JStr "ann@example.com");
                 ("id", JStr "u1")]).
Proof. vm_compute. reflexivity. Qed.

(** ** The script on scripted backends *)

#[local] Existing Instance demo.

(** The post checks, on the run of a backend that keeps to the contract. *)
Lemma post_checks_witness :
  let b : @backend demo := faithful_run in
  let w10 := world_after faithful_run 10 in
  reaches b 10 w10 /\
  exists w6 w7 w8 w9,
    reaches b 6 w6 /\ reaches b 7 w7 /\ reaches b 8 w8 /\ reaches b 9 w9 /\
    post_id w7 <> JNull /\
    post_id w10 = post_id w7 /\
    creation_accepted (answer (create_post_request (auth_token w6)) w6)
                      (post_id w7) /\
    fetch_accepted (answer (get_post_request (post_id w7)) w8) (post_id w7) /\
    update_accepted
      (answer (update_post_request (auth_token w6) (post_id w7)) w9)
      (post_id w7) /\
    sent w10 =
      (sent w6 ++ [create_post_request (auth_token w6);
                   list_posts_request;
                   get_post_request (post_id w7);
                   update_post_request (auth_token w6) (post_id w7)])%list /\
    (forall w, post_id w <> JNull ->
               fetch_accepted (answer (get_post_request (post_id w)) w)
                              (post_id w) ->
               exists w', test_get_single_post w = (Ok true, w')).
Proof.
  cbv zeta. split; [vm_compute; reflexivity|].
  apply post_checks. vm_compute. reflexivity.
Defined.

(** C1 as stated fails: against a backend that reports another text when
    the post is fetched, the post id is captured, the fetch step passes
    although the fetched text is not the text sent, every step of the run
    passes, the tenth request is the update, and no request after it goes
    to the post's address. *)
Lemma round_trip_is_not_checked :
  let w8 := world_after tampered_run 8 in
  let w16 := world_after tampered_run 16 in
  reaches tampered_run 8 w8 /\
  post_id w8 = JStr "p1" /\
  (exists w9 r data txt,
      test_get_single_post w8 = (Ok true, w9) /\
      answer (get_post_request (post_id w8)) w8 = Responded r /\
      json_body r = Some data /\
      py_getitem data "text" = Ok txt /\
      py_eq txt (JStr post_text) = false) /\
  reaches tampered_run 16 w16 /\
  nth_error (sent w16) 9 =
    Some (update_post_request (JStr "tok-1") (JStr "p1")) /\
  Forall (fun rq => rq_url rq <> rq_url (get_post_request (JStr "p1")))
         (skipn 10 (sent w16)).
Proof.
  cbv zeta. split; [vm_compute; reflexivity|].
  split; [vm_compute; reflexivity|].
  split.
  { exists (snd (test_get_single_post (world_after tampered_run 8))),
           (mkResponse 200 (Some (post_json tampered_text)) ""),
           (post_json tampered_text), (JStr tampered_text).
    repeat match goal with |- _ /\ _ => split end; vm_compute; reflexivity. }
  split; [vm_compute; reflexivity|].
  split; [vm_compute; reflexivity|].
  vm_compute. repeat constructor; discriminate.
Qed.

(** A registration answered with status 500 ends the run. *)
Lemma failures_end_the_run_witness :
  let b : @backend demo := failing_run in
  let s := call test_registration in
  let w := started b in
  let w' := snd (test_registration w) in
  let e := AssertionError [Lit "Registration failed with status "; IntOf 500] in
  nth_error test_steps 0 = Some s /\
  reaches b 0 w /\
  s w = (Raise e, w') /\
  exists wf,
    main (initial b) = (Ok tt, wf) /\
    sent wf = sent w' /\ server wf = server w' /\
    (forall m, e = AssertionError m ->
               printed wf = (printed w' ++ assertion_report e)%list) /\
    (e = ConnectionError ->
     printed wf = (printed w' ++ connection_report)%list) /\
    (is_assertion e = false -> is_connection e = false ->
     printed wf = (printed w' ++ error_report e)%list) /\
    (forall m, connection_report <> assertion_report (AssertionError m)).
Proof.
  cbv zeta.
  assert (H1 : nth_error (@test_steps demo) 0 = Some (call test_registration))
    by reflexivity.
  assert (H2 : @reaches demo failing_run 0 (started failing_run))
    by (vm_compute; reflexivity).
  assert (H3 : call test_registration (@started demo failing_run) =
               (Raise (AssertionError [Lit "Registration failed with status ";
                                       IntOf 500]),
                snd (test_registration (@started demo failing_run))))
    by (vm_compute; reflexivity).
  split; [exact H1|]. split; [exact H2|]. split; [exact H3|].
  exact (@failures_end_the_run demo failing_run 0 _ _ _ _ H1 H2 H3).
Defined.

(** The validation step of the contract-keeping run. *)
Lemma validation_errors_gate_witness :
  let b : @backend demo := faithful_run in
  let w := world_after faithful_run 15 in
  reaches b 15 w /\
  ((exists w' r1 b1 r2 b2,
       test_validation_errors w = (Ok tt, w') /\
       serve bad_email_request (server w) = (Responded r1, b1) /\
       status_code r1 = 422 /\
       serve short_password_request b1 = (Responded r2, b2) /\
       status_code r2 = 400 /\
       status_code r1 <> status_code r2 /\
       reaches b 16 w')
   \/
   (exists e w',
       test_validation_errors w = (Raise e, w') /\
       ~ validation_answered w /\
       main (initial b) = handler e w')).
Proof.
  cbv zeta. split; [vm_compute; reflexivity|].
  apply validation_errors_gate. vm_compute. reflexivity.
Defined.

(** The refused login of the contract-keeping run. *)
Lemma login_before_verification_gate_witness :
  let b : @backend demo := faithful_run in
  let w := world_after faithful_run 1 in
  reaches b 1 w /\
  ((exists w',
       test_login_before_verification w = (Ok true, w') /\
       refused_with 401 "verify your email" (answer login_request w) /\
       reaches b 2 w')
   \/
   (exists e w',
       test_login_before_verification w = (Raise e, w') /\
       main (initial b) = handler e w' /\
       sent (snd (main (initial b))) = (sent w ++ [login_request])%list)).
Proof.
  cbv zeta. split; [vm_compute; reflexivity|].
  apply login_before_verification_gate. vm_compute. reflexivity.
Defined.

(** The refused confirmation of the contract-keeping run. *)
Lemma verification_confirm_gate_witness :
  let b : @backend demo := faithful_run in
  let w := world_after faithful_run 3 in
  reaches b 3 w /\
  (((exists w',
        test_email_verification_confirm w = (Ok true, w') /\
        refused_with 400 "Invalid or expired"
                     (answer (confirm_request dummy_token) w) /\
        reaches b 4 w')
    \/
    (exists e w',
        test_email_verification_confirm w = (Raise e, w') /\
        main (initial b) = handler e w' /\
        sent (snd (main (initial b))) =
          (sent w ++ [confirm_request dummy_token])%list))
   /\ Forall confirms_with_dummy (sent (snd (main (initial b))))).
Proof.
  cbv zeta. split; [vm_compute; reflexivity|].
  apply verification_confirm_gate. vm_compute. reflexivity.
Defined.

(** The error cases of the contract-keeping run. *)
Lemma duplicate_registration_gate_witness :
  let b : @backend demo := faithful_run in
  let w := world_after faithful_run 14 in
  reaches b 14 w /\
  (exists rest, sent w = register_request :: rest) /\
  ((exists w' r1 b1 r2 b2,
       test_error_cases w = (Ok tt, w') /\
       sent w' = (sent w ++ [invalid_login_request; register_request;
                             invalid_token_request; missing_post_request])%list /\
       serve invalid_login_request (server w) = (Responded r1, b1) /\
       serve register_request b1 = (Responded r2, b2) /\
       status_code r2 = 400 /\
       reaches b 15 w')
   \/
   (exists e w',
       test_error_cases w = (Raise e, w') /\
       ~ error_cases_answered w /\
       main (initial b) = handler e w')) /\
  Forall (fun rq => other_username timestamp rq = false)
         (sent (snd (main (initial b)))).
Proof.
  cbv zeta. split; [vm_compute; reflexivity|].
  apply duplicate_registration_gate. vm_compute. reflexivity.
Defined.

(** C8 as stated fails: the script does not try another username.
    Against a backend that registers the used email a second time
    whenever the username is new (status 201, not 400), and otherwise
    keeps to the contract, every step of the run passes, the error cases
    among them; and no request of the run submits the registered email
    under another username. *)
Lemma other_username_is_never_tried :
  let b : @backend (Lenient ts0) := faithful_run in
  let w14 := lenient_world_after faithful_run 14 in
  let w15 := lenient_world_after faithful_run 15 in
  let w16 := lenient_world_after faithful_run 16 in
  @reaches (Lenient ts0) b 14 w14 /\
  other_username ts0 (other_username_request ts0) = true /\
  py_getitem (JDict [("username", JStr "someone_else");
                     ("email", JStr (test_email_of ts0));
                     ("password", JStr "password123")]) "email" =
    py_getitem (@test_user (Lenient ts0)) "email" /\
  fst (@serve (Lenient ts0) (other_username_request ts0)
              (@server (Lenient ts0) w14)) =
    reply 201 (JDict [("user", JDict [("id", JStr "u2")]);
                      ("token", JStr "tok-2")]) /\
  @test_error_cases (Lenient ts0) w14 = (Ok tt, w15) /\
  @reaches (Lenient ts0) b 16 w16 /\
  forallb (fun rq => negb (other_username ts0 rq))
          (@sent (Lenient ts0) w16) = true /\
  @sent (Lenient ts0) (snd (@main (Lenient ts0) (@initial (Lenient ts0) b))) =
    @sent (Lenient ts0) w16.
Proof.
  cbv zeta.
  repeat match goal with |- _ /\ _ => split end; vm_compute; reflexivity.
Qed.

(** The second login of the contract-keeping run is refused with 401. *)
Lemma refused_login_does_not_abort_witness :
  let b : @backend demo := faithful_run in
  let w := world_after faithful_run 4 in
  let r := mkResponse 401
             (Some (JDict [("detail",
                            JStr "Please verify your email before logging in")]))
             "{...}" in
  let b' : @backend demo := skipn 5 faithful_run in
  reaches b 4 w /\
  serve login_request (server w) = (Responded r, b') /\
  status_code r <> 200 /\
  exists w5,
    test_login w = (Ok false, w5) /\
    reaches b 5 w5 /\
    auth_token w5 = auth_token w /\
    registration_accepted (answer register_request (started b))
                          (auth_token w5) (user_id w5) /\
    main (initial b) = try_except after_login handler w5 /\
    (exists more,
        sent (snd (main (initial b))) =
          (sent w5 ++ profile_request (auth_token w5) :: more)%list /\
        Forall (authorised_by (auth_token w5)) more) /\
    (forall k wk, (5 <= k)%nat -> reaches b k wk -> auth_token wk = auth_token w5) /\
    ((exists w16, reaches b 16 w16 /\ auth_token w16 = auth_token w5)
     \/
     (exists k s wk e w',
         (5 <= k < 16)%nat /\
         nth_error test_steps k = Some s /\
         reaches b k wk /\
         auth_token wk = auth_token w5 /\
         s wk = (Raise e, w') /\
         main (initial b) = handler e w')).
Proof.
  cbv zeta.
  split; [vm_compute; reflexivity|].
  split; [vm_compute; reflexivity|].
  split; [vm_compute; discriminate|].
  apply (@refused_login_does_not_abort demo faithful_run (world_after faithful_run 4)
           (mkResponse 401
              (Some (JDict [("detail",
                             JStr "Please verify your email before logging in")]))
              "{...}")
           (skipn 5 faithful_run)).
  - vm_compute. reflexivity.
  - vm_compute. reflexivity.
  - vm_compute. discriminate.
Defined.

(** C9 as stated fails: a later step can still end the run.  Against a
    backend that keeps to the contract up to the refused login and then
    shows a profile without a user, the login is answered 401 and
    [test_login] returns [False]; the profile check that follows raises;
    the run ends there: the profile request is the sixth and last request
    sent, no post id is ever captured, and the sixteen calls do not all
    return. *)
Lemma later_step_ends_the_run :
  let b : @backend demo := profile_broken_run in
  let w := world_after profile_broken_run 4 in
  let w5 := world_after profile_broken_run 5 in
  let final := snd (main (initial b)) in
  reaches b 4 w /\
  answer login_request w =
    Responded
      (mkResponse 401
         (Some (JDict [("detail",
                        JStr "Please verify your email before logging in")]))
         "{...}") /\
  test_login w = (Ok false, w5) /\
  reaches b 5 w5 /\
  fst (test_profile w5) =
    Raise (AssertionError [Lit "No user data in response"]) /\
  fst (run_all (firstn 6 test_steps) (started b)) =
    Raise (AssertionError [Lit "No user data in response"]) /\
  sent final = (sent w5 ++ [profile_request (auth_token w5)])%list /\
  List.length (sent final) = 6%nat /\
  post_id final = JNull /\
  ~ (exists w16, reaches b 16 w16).
Proof.
  cbv zeta.
  repeat match goal with |- _ /\ _ => split end;
    try (vm_compute; reflexivity).
  intros [w16 H]. unfold reaches in H.
  apply (f_equal fst) in H. vm_compute in H. discriminate H.
Qed.

(** The contract-keeping run goes through all sixteen calls, the refused
    login included, on twenty requests. *)
Example faithful_run_completes :
  reaches faithful_run 16 (world_after faithful_run 16) /\
  fst (main (initial faithful_run)) = Ok tt /\
  List.length (sent (snd (main (initial faithful_run)))) = 20%nat /\
  auth_token (snd (main (initial faithful_run))) = JStr "tok-1".
Proof.
  repeat match goal with |- _ /\ _ => split end; vm_compute; reflexivity.
Qed.

(** With no backend to talk to, the run ends on the first request and the
    handler writes the connection report after the banner and the header
    of the first test. *)
Example unreachable_backend_reported :
  sent (snd (main (initial unreachable_run))) = [@register_request demo] /\
  skipn 6 (printed (snd (main (initial unreachable_run)))) = connection_report.
Proof.
  repeat match goal with |- _ /\ _ => split end; vm_compute; reflexivity.
Qed.

(** ** The test data *)

(** Printing an integer in decimal loses nothing. *)
Lemma str_of_int_inj (a b : Z) : str_of_int a = str_of_int b -> a = b.
Proof.
  unfold str_of_int. intros H.
  assert (Hn : forall z, Z.to_int z <> Decimal.Pos Decimal.Nil /\
                         Z.to_int z <> Decimal.Neg Decimal.Nil).
  { intros [|p|p]; simpl; split; try discriminate;
      intros [= E]; now apply (DecimalPos.Unsigned.to_uint_nonnil p). }
  apply DecimalZ.to_int_inj.
  pose proof (NilZero.isi (Z.to_int a) (proj1 (Hn a)) (proj2 (Hn a))) as Ia.
  pose proof (NilZero.isi (Z.to_int b) (proj1 (Hn b)) (proj2 (Hn b))) as Ib.
  rewrite H in Ia. congruence.
Qed.

Lemma length_append (a b : string) :
  String.length (a ++ b) = (String.length a + String.length b)%nat.
Proof. induction a as [|x a IH]; simpl; [reflexivity | now rewrite IH]. Qed.

Lemma append_cancel_r (a b c : string) : a ++ c = b ++ c -> a = b.
Proof.
  revert b; induction a as [|x a IH]; intros [|y b]; simpl; intros H.
  - reflexivity.
  - apply (f_equal String.length) in H. simpl in H.
    rewrite length_append in H. lia.
  - apply (f_equal String.length) in H. simpl in H.
    rewrite length_append in H. lia.
  - injection H as -> H. f_equal. now apply IH.
Qed.

(** X17.  The timestamp makes the test data unique: two timestamps that
    give the same username, or the same email, are equal; and the first
    and the second test user never share a username or an email. *)
Theorem test_data_unique (t1 t2 : Z) :
  (py_getitem (test_user_of t1) "username"
   = py_getitem (test_user_of t2) "username" -> t1 = t2) /\
  (py_getitem (test_user_of t1) "email"
   = py_getitem (test_user_of t2) "email" -> t1 = t2) /\
  py_getitem (test_user_of t1) "username"
  <> py_getitem (test_user2_of t2) "username" /\
  py_getitem (test_user_of t1) "email"
  <> py_getitem (test_user2_of t2) "email".
Proof.
  unfold test_user_of, test_user2_of. cbn [py_getitem lookup String.eqb Ascii.eqb Bool.eqb].
  repeat split.
  - intros [= H]. now apply str_of_int_inj.
  - intros [= H]. apply append_cancel_r in H. now apply str_of_int_inj.
  - intros [= H].
  - intros [= H].
Qed.

(** ** More of the schema *)

(** X16.  A payload accepted for creation is accepted for login as it
    stands: the login model keeps its email and password and drops the
    username.  (The script posts the registration payload to the login
    endpoint.) *)
Theorem creation_payload_logs_in (validate_email : string -> option string)
        (payload v : json) :
  model_validate validate_email UserCreate payload = Some v ->
  exists v',
    model_validate validate_email UserLogin payload = Some v' /\
    py_getitem v' "email" = py_getitem v "email" /\
    py_getitem v' "password" = py_getitem v "password" /\
    py_in "username" v' = Ok false.
Proof.
  unfold model_validate, UserCreate, UserLogin, UserBase.
  destruct payload as [| | | | |kv]; simpl; try discriminate.
  destruct (lookup "username" kv) as [u|]; [|discriminate].
  destruct u; try discriminate.
  destruct (lookup "email" kv) as [e|]; [|discriminate].
  destruct e as [| | |e| |]; try discriminate.
  destruct (validate_email e) as [e'|]; [|discriminate]. simpl.
  destruct (lookup "password" kv) as [p|]; [|discriminate].
  destruct p; try discriminate. simpl.
  intros [= <-]. eexists. repeat split.
Qed.

Lemma creation_payload_logs_in_witness :
  model_validate coarse_email UserCreate short_password_data
  = Some short_password_data /\
  exists v',
    model_validate coarse_email UserLogin short_password_data = Some v' /\
    py_getitem v' "email" = py_getitem short_password_data "email" /\
    py_getitem v' "password" = py_getitem short_password_data "password" /\
    py_in "username" v' = Ok false.
Proof.
  split; [vm_compute; reflexivity|].
  apply (creation_payload_logs_in coarse_email short_password_data).
  vm_compute. reflexivity.
Defined.

(** ** More of the script on scripted backends *)

(** The profile step of the contract-keeping run. *)
Lemma profile_outcomes_witness :
  let w := world_after faithful_run 5 in
  auth_token w <> JNull /\
  (sent (snd (test_profile w)) = (sent w ++ [profile_request (auth_token w)])%list /\
   same_globals w (snd (test_profile w)) /\
   ((exists w',
        test_profile w = (Ok true, w') /\
        profile_shown (answer (profile_request (auth_token w)) w))
    \/
    (exists w' r,
        test_profile w = (Ok false, w') /\
        answer (profile_request (auth_token w)) w = Responded r /\
        status_code r <> 200)
    \/
    (exists e w',
        test_profile w = (Raise e, w') /\
        ~ profile_shown (answer (profile_request (auth_token w)) w) /\
        ~ (exists r, answer (profile_request (auth_token w)) w = Responded r /\
                     status_code r <> 200)))).
Proof.
  cbv zeta. split; [vm_compute; discriminate|].
  apply profile_outcomes. vm_compute. discriminate.
Defined.

(** Before the registration there is no token: the profile step sends
    nothing. *)
Lemma no_request_without_token_witness :
  let w := @initial demo faithful_run in
  auth_token w = JNull /\
  In test_profile token_steps /\
  exists w',
    test_profile w
    = (Raise (AssertionError [Lit "No auth token available"]), w') /\
    sent w' = sent w /\ server w' = server w /\ same_globals w w'.
Proof.
  cbv zeta.
  assert (H2 : In (@test_profile demo) token_steps) by (left; reflexivity).
  split; [reflexivity|]. split; [exact H2|].
  exact (@no_request_without_token demo (initial faithful_run) test_profile
           eq_refl H2).
Defined.

(** Before the post is created there is no post id: the comments are not
    asked for. *)
Lemma no_request_without_post_witness :
  let w := world_after faithful_run 5 in
  post_id w = JNull /\
  In test_get_comments post_steps /\
  exists msg w',
    test_get_comments w = (Raise (AssertionError msg), w') /\
    (msg = [Lit "No post ID available"] \/
     msg = [Lit "No auth token available"] /\ auth_token w = JNull) /\
    sent w' = sent w /\ server w' = server w /\ same_globals w w'.
Proof.
  cbv zeta.
  assert (H1 : post_id (world_after faithful_run 5) = JNull)
    by (vm_compute; reflexivity).
  assert (H2 : In (@test_get_comments demo) post_steps)
    by (right; right; right; left; reflexivity).
  split; [exact H1|]. split; [exact H2|].
  exact (@no_request_without_post demo (world_after faithful_run 5)
           test_get_comments H1 H2).
Defined.


(** A first login answered with status 500 fails on the status, not on a
    guard. *)
Lemma guards_never_fire_witness :
  let b : @backend demo := stalled_run in
  let s := call test_login_before_verification in
  let w := world_after stalled_run 1 in
  let e := AssertionError [Lit "Login should fail before verification, got ";
                           IntOf 500] in
  let w' := snd (test_login_before_verification w) in
  nth_error test_steps 1 = Some s /\
  reaches b 1 w /\
  s w = (Raise e, w') /\
  (((1 <= 1)%nat -> e <> AssertionError [Lit "No auth token available"]) /\
   ((7 <= 1)%nat -> e <> AssertionError [Lit "No post ID available"])).
Proof.
  cbv zeta.
  assert (H1 : nth_error (@test_steps demo) 1
               = Some (call test_login_before_verification)) by reflexivity.
  assert (H2 : @reaches demo stalled_run 1 (world_after stalled_run 1))
    by (vm_compute; reflexivity).
  assert (H3 : call test_login_before_verification (world_after stalled_run 1)
               = (Raise (AssertionError
                           [Lit "Login should fail before verification, got ";
                            IntOf 500]),
                  snd (test_login_before_verification
                         (world_after stalled_run 1))))
    by (vm_compute; reflexivity).
  split; [exact H1|]. split; [exact H2|]. split; [exact H3|].
  exact (@guards_never_fire demo stalled_run 1 _ _ _ _ H1 H2 H3).
Defined.

(** The twenty requests of the contract-keeping run. *)
Lemma complete_run_trace_witness :
  let b : @backend demo := faithful_run in
  let w := world_after faithful_run 16 in
  reaches b 16 w /\
  sent w = full_trace (auth_token w) (post_id w).
Proof.
  cbv zeta. split; [vm_compute; reflexivity|].
  apply (@complete_run_trace demo faithful_run). vm_compute. reflexivity.
Defined.
